(** * Flash-loan pool and arbitrage detector: a shallow embedding

    The Move modules [sui_flash_loan::flash_loan] and
    [sui_flash_loan::arbitrage_detector]
    (contracts/sources/flash_loan.move) are embedded as functions in a
    state-and-abort monad.  A [u64] is a [Z] in [0, 2^64 - 1]; Move checks
    every arithmetic operation, so an overflow, an underflow or a division by
    zero aborts (the Move VM reports all three as one arithmetic error).  A
    [&mut] parameter is the monad's state; objects the function creates,
    shares or emits go to the transaction record [Tx]. *)

From Stdlib Require Import ZArith Lia Bool List.
From stdpp Require Import base option gmap strings list.
Import ListNotations.

Local Open Scope Z_scope.

(** ** Machine integers and addresses *)

Definition u64 : Type := Z.
Definition MAX_U64 : Z := 18446744073709551615.

Definition address : Type := Z.
Definition UID : Type := address.

(** ** Aborts and the monad *)

Inductive abort : Type :=
  | AbortCode (code : Z)                       (* assert!(cond, code) of the running module *)
  | ArithmeticError                            (* overflow, underflow, division by zero *)
  | FrameworkAbort (module_ : string) (code : Z). (* an assert! inside the Sui framework *)

Inductive outcome (S A : Type) : Type :=
  | Ok (a : A) (s : S)
  | Aborted (e : abort) (s : S).
Arguments Ok {S A} a s.
Arguments Aborted {S A} e s.

(** [Aborted e s] keeps the state [s] reached when the abort was raised, so
    that one can see what had been written by then.  A transaction that
    aborts is discarded as a whole: see [commit]. *)
Definition M (S A : Type) : Type := S -> outcome S A.

Definition ret {S A} (a : A) : M S A := fun s => Ok a s.

Definition bind {S A B} (m : M S A) (k : A -> M S B) : M S B :=
  fun s => match m s with
           | Ok a s' => k a s'
           | Aborted e s' => Aborted e s'
           end.

Definition raise {S A} (e : abort) : M S A := fun s => Aborted e s.
Definition get {S} : M S S := fun s => Ok s s.
Definition put {S} (s : S) : M S unit := fun _ => Ok tt s.
Definition reads {S A} (f : S -> A) : M S A := fun s => Ok (f s) s.
Definition modify {S} (f : S -> S) : M S unit := fun s => Ok tt (f s).

(** Run a computation on a part [T] of the state [S]. *)
Definition zoom {S T A} (proj : S -> T) (upd : T -> S -> S) (m : M T A) : M S A :=
  fun s => match m (proj s) with
           | Ok a t => Ok a (upd t s)
           | Aborted e t => Aborted e (upd t s)
           end.

Notation "'let!' x ':=' c 'in' k" := (bind c (fun x => k))
  (at level 10, x pattern, c at level 100, k at level 200).
Notation "c1 ';;' c2" := (bind c1 (fun _ => c2))
  (at level 100, c2 at level 200, right associativity).

(** [assert!(cond, code)] *)
Definition assert {S} (cond : bool) (code : Z) : M S unit :=
  if cond then ret tt else raise (AbortCode code).

(** What a transaction leaves behind: the new state when it returns, the
    old state when it aborts. *)
Definition commit {S A} (m : M S A) (s : S) : S :=
  match m s with
  | Ok _ s' => s'
  | Aborted _ _ => s
  end.

(** ** Checked u64 arithmetic *)

Definition u64_add {S} (a b : u64) : M S u64 :=
  if a + b <=? MAX_U64 then ret (a + b) else raise ArithmeticError.

Definition u64_sub {S} (a b : u64) : M S u64 :=
  if b <=? a then ret (a - b) else raise ArithmeticError.

Definition u64_mul {S} (a b : u64) : M S u64 :=
  if a * b <=? MAX_U64 then ret (a * b) else raise ArithmeticError.

Definition u64_div {S} (a b : u64) : M S u64 :=
  if b =? 0 then raise ArithmeticError else ret (a / b).

(** ** Data of the Sui framework *)

(** [sui::balance::Balance<T>] and [sui::coin::Coin<T>] *)
Record Balance : Type := mkBalance { value : u64 }.
Record Coin : Type := mkCoin { coin_id : UID; coin_balance : Balance }.

Record Clock : Type := mkClock { timestamp_ms : u64 }.

Record TxContext : Type := mkTxContext {
  sender : address;
  tx_hash : Z;
  ids_created : Z;
}.

(** ** Data of [flash_loan] *)

(** [struct FlashLoan<phantom T> has key, store] *)
Record FlashLoan : Type := mkFlashLoan {
  loan_id : UID;
  loan_amount : u64;
  loan_fee : u64;
  loan_borrower : address;
  loan_pool_id : address;
}.

(** [struct LiquidityPool<phantom T> has key] *)
Record LiquidityPool : Type := mkLiquidityPool {
  pool_uid : UID;
  balance : Balance;
  fee_rate : u64;
  max_loan_amount : u64;
  total_loans_issued : u64;
  total_fees_collected : u64;
  active : bool;
  admin : address;
}.

(** ** Data of [arbitrage_detector] *)

Record ArbitrageOpportunity : Type := mkArbitrageOpportunity {
  opp_id : UID;
  pool_a_id : address;
  pool_b_id : address;
  token_pair : string;
  price_a : u64;
  price_b : u64;
  price_difference : u64;
  potential_profit : u64;
  recommended_amount : u64;
  opportunity_type : string;
  created_at : u64;
  expires_at : u64;
  executed : bool;
}.

Record ArbitrageDetector : Type := mkArbitrageDetector {
  detector_uid : UID;
  opportunities : gmap address ArbitrageOpportunity;
  registered_pools : list address;
  min_profit_threshold : u64;
  max_opportunities : u64;
  detector_admin : address;
}.

Record PriceOracle : Type := mkPriceOracle {
  oracle_uid : UID;
  prices : gmap string u64;
  last_updated : gmap string u64;
  oracle_admin : address;
}.

Record PoolInfo : Type := mkPoolInfo {
  pool_id : address;
  token_a_type : string;
  token_b_type : string;
  reserve_a : u64;
  reserve_b : u64;
  info_fee_rate : u64;
  pool_type : string;
}.

(** ** Events *)

Inductive Event : Type :=
  | FlashLoanBorrowed (pool_id borrower : address) (amount fee timestamp : u64)
  | FlashLoanRepaid (pool_id borrower : address) (amount fee profit timestamp : u64)
  | OpportunityDetected (detector pool_a pool_b : address) (token_pair : string)
      (price_difference potential_profit recommended_amount : u64)
      (opportunity_type : string) (timestamp : u64).

(** ** The transaction record *)

Record Tx : Type := mkTx {
  ctx : TxContext;
  events : list Event;               (* event::emit, oldest first *)
  shared_pools : list LiquidityPool; (* transfer::share_object, oldest first *)
}.

(** The state of a function with one [&mut] object parameter. *)
Record Env (X : Type) : Type := mkEnv { obj : X; tx : Tx }.
Arguments mkEnv {X} obj tx.
Arguments obj {X} e.
Arguments tx {X} e.

Definition set_ctx (c : TxContext) (t : Tx) : Tx :=
  mkTx c (events t) (shared_pools t).
Definition set_tx {X} (t : Tx) (e : Env X) : Env X := mkEnv (obj e) t.
Definition set_obj {X} (x : X) (e : Env X) : Env X := mkEnv x (tx e).

Definition in_tx {X A} (m : M Tx A) : M (Env X) A := zoom tx set_tx m.
Definition in_obj {X A} (m : M X A) : M (Env X) A := zoom obj set_obj m.

(** ** Functions of the Sui framework *)

(** [sui::tx_context::derive_id] is a native hash of the transaction digest
    and the counter; the model pairs the two, which is all that the
    embedding needs of it. *)
Definition derive_id (tx_hash ids_created : Z) : address :=
  tx_hash * 18446744073709551616 + ids_created.

(** [sui::object::new] *)
Definition object_new : M Tx UID :=
  fun t =>
    let c := ctx t in
    Ok (derive_id (tx_hash c) (ids_created c))
       (set_ctx (mkTxContext (sender c) (tx_hash c) (ids_created c + 1)) t).

(** [sui::object::delete]: the identifier is gone; nothing else is written. *)
Definition object_delete {S} (id : UID) : M S unit := ret tt.

Definition uid_to_address (id : UID) : address := id.

(** [sui::tx_context::sender] *)
Definition tx_sender : M Tx address := reads (fun t => sender (ctx t)).

(** [sui::event::emit] *)
Definition emit (e : Event) : M Tx unit :=
  modify (fun t => mkTx (ctx t) (events t ++ [e]) (shared_pools t)).

(** [sui::transfer::share_object] at [LiquidityPool<T>] *)
Definition share_object (p : LiquidityPool) : M Tx unit :=
  modify (fun t => mkTx (ctx t) (events t) (shared_pools t ++ [p])).

(** [sui::balance::value] *)
Definition balance_value (b : Balance) : u64 := value b.

(** [sui::balance::split]: [assert!(self.value >= value, ENotEnough)] *)
Definition ENotEnough : Z := 2.
Definition balance_split (v : u64) : M Balance Balance :=
  fun self =>
    if v <=? value self
    then Ok (mkBalance v) (mkBalance (value self - v))
    else Aborted (FrameworkAbort "balance" ENotEnough) self.

(** [sui::balance::join]: [self.value = self.value + value] *)
Definition balance_join (b : Balance) : M Balance u64 :=
  let! self := get in
  let! v := u64_add (value self) (value b) in
  put (mkBalance v) ;;
  ret v.

(** [sui::coin::from_balance], [sui::coin::into_balance], [sui::coin::value] *)
Definition coin_from_balance (b : Balance) : M Tx Coin :=
  let! id := object_new in
  ret (mkCoin id b).

Definition coin_into_balance {S} (c : Coin) : M S Balance :=
  object_delete (coin_id c) ;;
  ret (coin_balance c).

Definition coin_value (c : Coin) : u64 := value (coin_balance c).

(** ** Module [flash_loan] *)

Definition EInsufficientBalance : Z := 0.
Definition EInvalidRepayment : Z := 1.
Definition EUnauthorizedAccess : Z := 2.
Definition ELoanExpired : Z := 3.
Definition EMaxLoanExceeded : Z := 4.
Definition EPoolNotActive : Z := 5.

Definition set_balance (b : Balance) (p : LiquidityPool) : LiquidityPool :=
  mkLiquidityPool (pool_uid p) b (fee_rate p) (max_loan_amount p)
    (total_loans_issued p) (total_fees_collected p) (active p) (admin p).
Definition set_fee_rate (r : u64) (p : LiquidityPool) : LiquidityPool :=
  mkLiquidityPool (pool_uid p) (balance p) r (max_loan_amount p)
    (total_loans_issued p) (total_fees_collected p) (active p) (admin p).
Definition set_total_loans_issued (n : u64) (p : LiquidityPool) : LiquidityPool :=
  mkLiquidityPool (pool_uid p) (balance p) (fee_rate p) (max_loan_amount p)
    n (total_fees_collected p) (active p) (admin p).
Definition set_total_fees_collected (n : u64) (p : LiquidityPool) : LiquidityPool :=
  mkLiquidityPool (pool_uid p) (balance p) (fee_rate p) (max_loan_amount p)
    (total_loans_issued p) n (active p) (admin p).
Definition set_active (b : bool) (p : LiquidityPool) : LiquidityPool :=
  mkLiquidityPool (pool_uid p) (balance p) (fee_rate p) (max_loan_amount p)
    (total_loans_issued p) (total_fees_collected p) b (admin p).

(** [public entry fun create_pool<T>] (lines 83-102) *)
Definition create_pool (initial_balance : Coin) (fee_rate max_loan_amount : u64)
  : M Tx unit :=
  let! id := object_new in
  let! bal := coin_into_balance initial_balance in
  let! adm := tx_sender in
  let pool := mkLiquidityPool id bal fee_rate max_loan_amount 0 0 true adm in
  let pool_address := uid_to_address (pool_uid pool) in
  share_object pool.

(** [public fun borrow<T>] (lines 105-145); the state is the pool behind
    [pool: &mut LiquidityPool<T>] and the transaction. *)
Definition borrow (amount : u64) (clock : Clock)
  : M (Env LiquidityPool) (Coin * FlashLoan) :=
  let! pool := reads obj in
  assert (active pool) EPoolNotActive ;;
  assert (amount <=? max_loan_amount pool) EMaxLoanExceeded ;;
  assert (amount <=? balance_value (balance pool)) EInsufficientBalance ;;
  let! borrower := in_tx tx_sender in
  let! scaled := u64_mul amount (fee_rate pool) in
  let! fee := u64_div scaled 10000 in
  let pool_id := uid_to_address (pool_uid pool) in
  let! borrowed_balance := in_obj (zoom balance set_balance (balance_split amount)) in
  let! borrowed_coin := in_tx (coin_from_balance borrowed_balance) in
  let! id := in_tx object_new in
  let loan := mkFlashLoan id amount fee borrower pool_id in
  let! issued := reads (fun e => total_loans_issued (obj e)) in
  let! issued' := u64_add issued 1 in
  in_obj (modify (set_total_loans_issued issued')) ;;
  in_tx (emit (FlashLoanBorrowed pool_id borrower amount fee (timestamp_ms clock))) ;;
  ret (borrowed_coin, loan).

(** [public fun repay<T>] (lines 148-185) *)
Definition repay (payment : Coin) (loan : FlashLoan) (clock : Clock)
  : M (Env LiquidityPool) unit :=
  let '(mkFlashLoan id amount fee borrower pool_id) := loan in
  object_delete id ;;
  let! caller := in_tx tx_sender in
  assert (caller =? borrower) EUnauthorizedAccess ;;
  let payment_amount := coin_value payment in
  let! due := u64_add amount fee in
  assert (due <=? payment_amount) EInvalidRepayment ;;
  let! due' := u64_add amount fee in
  let! profit :=
    (if due' <? payment_amount
     then (let! rest := u64_sub payment_amount amount in u64_sub rest fee)
     else ret 0) in
  let! paid := coin_into_balance payment in
  let! _ := in_obj (zoom balance set_balance (balance_join paid)) in
  let! collected := reads (fun e => total_fees_collected (obj e)) in
  let! collected' := u64_add collected fee in
  in_obj (modify (set_total_fees_collected collected')) ;;
  in_tx (emit (FlashLoanRepaid pool_id borrower amount fee profit (timestamp_ms clock))).

(** [public entry fun toggle_pool_status<T>] (lines 214-220) *)
Definition toggle_pool_status : M (Env LiquidityPool) unit :=
  let! caller := in_tx tx_sender in
  let! pool := reads obj in
  assert (caller =? admin pool) EUnauthorizedAccess ;;
  in_obj (modify (fun p => set_active (negb (active p)) p)).

(** [public entry fun update_fee_rate<T>] (lines 222-230) *)
Definition update_fee_rate (new_fee_rate : u64) : M (Env LiquidityPool) unit :=
  let! caller := in_tx tx_sender in
  let! pool := reads obj in
  assert (caller =? admin pool) EUnauthorizedAccess ;;
  assert (new_fee_rate <=? 1000) 101 ;;
  in_obj (modify (set_fee_rate new_fee_rate)).

(** View functions (lines 233-243) *)
Definition pool_balance (pool : LiquidityPool) : u64 := balance_value (balance pool).
Definition pool_fee_rate (pool : LiquidityPool) : u64 := fee_rate pool.
Definition pool_stats (pool : LiquidityPool) : u64 * u64 * bool :=
  (total_loans_issued pool, total_fees_collected pool, active pool).

(** ** Module [arbitrage_detector] *)

Definition set_opportunities (m : gmap address ArbitrageOpportunity)
  (d : ArbitrageDetector) : ArbitrageDetector :=
  mkArbitrageDetector (detector_uid d) m (registered_pools d)
    (min_profit_threshold d) (max_opportunities d) (detector_admin d).

(** [sui::table::add]: the framework aborts when the key is present
    ([sui::dynamic_field::EFieldAlreadyExists]). *)
Definition EFieldAlreadyExists : Z := 0.
Definition table_add {V} (k : address) (v : V) : M (gmap address V) unit :=
  fun t =>
    match t !! k with
    | Some _ => Aborted (FrameworkAbort "dynamic_field" EFieldAlreadyExists) t
    | None => Ok tt (<[k := v]> t)
    end.

(** [sui::table::length] *)
Definition table_length {V} (t : gmap address V) : u64 := Z.of_nat (size t).

(** [fun calculate_amm_price] (lines 500-504) *)
Definition calculate_amm_price {S} (reserve_a reserve_b : u64) : M S u64 :=
  if reserve_a =? 0 then ret 0
  else
    let! scaled := u64_mul reserve_b 1000000 in
    u64_div scaled reserve_a.

(** [fun create_opportunity] (lines 506-539) *)
Definition create_opportunity (pool_a pool_b : address) (token_pair : string)
  (price_a price_b price_diff profit amount : u64) (opp_type : string)
  (clock : Clock) : M (Env ArbitrageDetector) address :=
  let! id := in_tx object_new in
  let created := timestamp_ms clock in
  let! expires := u64_add (timestamp_ms clock) 300000 in
  let opportunity :=
    mkArbitrageOpportunity id pool_a pool_b token_pair price_a price_b
      price_diff profit amount opp_type created expires false in
  let opp_id := uid_to_address (opp_id opportunity) in
  in_obj (zoom opportunities set_opportunities (table_add opp_id opportunity)) ;;
  ret opp_id.

(** [|a - b|] as both detectors compute it *)
Definition abs_diff {S} (a b : u64) : M S u64 :=
  if b <? a then u64_sub a b else u64_sub b a.

(** [(price_diff * 10000) / ((a + b) / 2)] *)
Definition relative_diff {S} (price_diff a b : u64) : M S u64 :=
  let! scaled := u64_mul price_diff 10000 in
  let! total := u64_add a b in
  let! avg := u64_div total 2 in
  u64_div scaled avg.

(** [public fun detect_dex_arbitrage] (lines 380-431) *)
Definition detect_dex_arbitrage (pool_a_info pool_b_info : PoolInfo) (clock : Clock)
  : M (Env ArbitrageDetector) bool :=
  let! price_a := calculate_amm_price (reserve_a pool_a_info) (reserve_b pool_a_info) in
  let! price_b := calculate_amm_price (reserve_a pool_b_info) (reserve_b pool_b_info) in
  let! price_diff := abs_diff price_a price_b in
  let! relative := relative_diff price_diff price_a price_b in
  let! threshold := reads (fun e => min_profit_threshold (obj e)) in
  if threshold <? relative then
    let! opportunity_id :=
      create_opportunity (pool_id pool_a_info) (pool_id pool_b_info) "SUI/USDC"
        price_a price_b price_diff relative 1000000 "dex_arbitrage" clock in
    let! who := in_tx tx_sender in
    in_tx (emit (OpportunityDetected who (pool_id pool_a_info) (pool_id pool_b_info)
                   "SUI/USDC" price_diff relative 1000000 "dex_arbitrage"
                   (timestamp_ms clock))) ;;
    ret true
  else ret false.

(** [public fun detect_cross_chain_arbitrage] (lines 434-466) *)
Definition detect_cross_chain_arbitrage (oracle : PriceOracle)
  (sui_price external_price : u64) (clock : Clock)
  : M (Env ArbitrageDetector) bool :=
  let! price_diff := abs_diff sui_price external_price in
  let! relative := relative_diff price_diff sui_price external_price in
  let! threshold := reads (fun e => min_profit_threshold (obj e)) in
  let! bar := u64_mul threshold 2 in
  if bar <? relative then
    let! who := in_tx tx_sender in
    in_tx (emit (OpportunityDetected who 1 2 "SUI/USD" price_diff relative 5000000
                   "cross_chain" (timestamp_ms clock))) ;;
    ret true
  else ret false.

(** [public fun detect_liquidation_opportunity] (lines 469-497) *)
Definition detect_liquidation_opportunity
  (collateral_value debt_value liquidation_threshold : u64) (clock : Clock)
  : M (Env ArbitrageDetector) bool :=
  let! scaled := u64_mul collateral_value 10000 in
  let! collateral_ratio := u64_div scaled debt_value in
  if collateral_ratio <? liquidation_threshold then
    let! reward := u64_mul debt_value 500 in
    let! profit_potential := u64_div reward 10000 in
    let! who := in_tx tx_sender in
    let! shortfall := u64_sub debt_value collateral_value in
    in_tx (emit (OpportunityDetected who 0 0 "COLLATERAL/DEBT" shortfall
                   profit_potential debt_value "liquidation" (timestamp_ms clock))) ;;
    ret true
  else ret false.

(** [public fun opportunity_count] (lines 554-556) *)
Definition opportunity_count (detector : ArbitrageDetector) : u64 :=
  table_length (opportunities detector).

(** ** The pool after a call *)

(** The pool after a loan of [amount] was issued. *)
Definition pool_after_borrow (amount : u64) (p : LiquidityPool) : LiquidityPool :=
  set_total_loans_issued (total_loans_issued p + 1)
    (set_balance (mkBalance (value (balance p) - amount)) p).

(** The pool after [loan] was settled with [payment]. *)
Definition pool_after_repay (payment : Coin) (loan : FlashLoan) (p : LiquidityPool)
  : LiquidityPool :=
  set_total_fees_collected (total_fees_collected p + loan_fee loan)
    (set_balance (mkBalance (value (balance p) + coin_value payment)) p).

(** The calls that reach a pool other than [update_fee_rate]. *)
Inductive pool_call : Type :=
  | call_borrow (amount : u64) (clock : Clock)
  | call_repay (payment : Coin) (loan : FlashLoan) (clock : Clock)
  | call_toggle_pool_status.

Definition run_call (c : pool_call) : M (Env LiquidityPool) unit :=
  match c with
  | call_borrow amount clock => let! _ := borrow amount clock in ret tt
  | call_repay payment loan clock => repay payment loan clock
  | call_toggle_pool_status => toggle_pool_status
  end.

(** The shared pool after the transaction [t] made the call [c]. *)
Definition pool_after (t : Tx) (c : pool_call) (p : LiquidityPool) : LiquidityPool :=
  obj (commit (run_call c) (mkEnv p t)).

Fixpoint pool_after_all (calls : list (Tx * pool_call)) (p : LiquidityPool)
  : LiquidityPool :=
  match calls with
  | [] => p
  | (t, c) :: rest => pool_after_all rest (pool_after t c p)
  end.

(** ** The detectors in the words of the specification *)

(** The price and the relative difference in the spec's words, over the
    integers: [price = reserve_quote * SCALE / reserve_base], 0 when
    [reserve_base = 0]; [relative_diff_bps = |price_a - price_b| * 10000 /
    avg(price_a, price_b)]. *)
Definition SCALE : Z := 1000000.
Definition spot_price (info : PoolInfo) : Z :=
  if reserve_a info =? 0 then 0 else reserve_b info * SCALE / reserve_a info.
Definition relative_diff_bps (price_a price_b : Z) : Z :=
  Z.abs (price_a - price_b) * 10000 / ((price_a + price_b) / 2).

(** The scaled reserve of a snapshot fits in a u64 (nothing is scaled when
    the base reserve is 0). *)
Definition price_fits (info : PoolInfo) : Prop :=
  reserve_a info = 0 \/ reserve_b info * SCALE <= MAX_U64.

(** The opportunity that [detect_dex_arbitrage] files. *)
Definition dex_opportunity (a b : PoolInfo) (clock : Clock) (id : UID)
  : ArbitrageOpportunity :=
  mkArbitrageOpportunity id (pool_id a) (pool_id b) "SUI/USDC"
    (spot_price a) (spot_price b) (Z.abs (spot_price a - spot_price b))
    (relative_diff_bps (spot_price a) (spot_price b)) 1000000 "dex_arbitrage"
    (timestamp_ms clock) (timestamp_ms clock + 300000) false.

Definition next_id (t : Tx) : UID := derive_id (tx_hash (ctx t)) (ids_created (ctx t)).

(** ** Units of work that hold obligations *)

(** The abilities of a Move struct type decide what code outside its module
    may do with a value of it: copy it ([copy]), let it go out of scope
    ([drop]), wrap or store it ([store]), and, for a Sui object with [key]
    and [store], hand it to an address with
    [sui::transfer::public_transfer].  Only the defining module can unpack
    it; in [flash_loan] that is [repay] alone. *)
Record abilities : Type := mkAbilities {
  has_copy : bool;
  has_drop : bool;
  has_store : bool;
  has_key : bool;
}.

(** [struct FlashLoan<phantom T> has key, store] (line 47) *)
Definition FlashLoan_abilities : abilities := mkAbilities false false true true.

(** A struct without abilities: the "hot potato" of the comment on line 46. *)
Definition hot_potato : abilities := mkAbilities false false false false.

(** What outlives a transaction: the shared pools, by id, and the
    obligations at rest, each with its owner. *)
Record Ledger : Type := mkLedger {
  pools : gmap address LiquidityPool;
  owned_loans : list (address * FlashLoan);
}.

(** A transaction under way: the obligations the running code holds. *)
Record Work : Type := mkWork {
  ledger : Ledger;
  work_tx : Tx;
  held : list FlashLoan;
}.

Inductive command : Type :=
  | Borrow (pool : address) (amount : u64)            (* flash_loan::borrow *)
  | Repay (pool : address) (payment : Coin) (k : nat) (* flash_loan::repay, k-th held obligation *)
  | UpdateFeeRate (pool : address) (new_fee_rate : u64) (* flash_loan::update_fee_rate *)
  | PublicTransfer (k : nat) (recipient : address)    (* needs key and store *)
  | Discard (k : nat)                                 (* needs drop *)
  | Duplicate (k : nat).                              (* needs copy *)

(** One command either goes through, or raises an abort, or is not code
    that Move accepts: it uses an ability the type lacks, or names a pool or
    an obligation that is not there. *)
Inductive stepped : Type :=
  | Next (w : Work)
  | Raised (e : abort)
  | IllTyped.

Definition set_pool (id : address) (p : LiquidityPool) (l : Ledger) : Ledger :=
  mkLedger (<[id := p]> (pools l)) (owned_loans l).

Definition step (ab : abilities) (clock : Clock) (c : command) (w : Work) : stepped :=
  match c with
  | Borrow pool amount =>
      match pools (ledger w) !! pool with
      | Some p =>
          match borrow amount clock (mkEnv p (work_tx w)) with
          | Ok (_, loan) e' =>
              Next (mkWork (set_pool pool (obj e') (ledger w)) (tx e') (held w ++ [loan]))
          | Aborted err _ => Raised err
          end
      | None => IllTyped
      end
  | Repay pool payment k =>
      match pools (ledger w) !! pool, held w !! k with
      | Some p, Some loan =>
          match repay payment loan clock (mkEnv p (work_tx w)) with
          | Ok _ e' =>
              Next (mkWork (set_pool pool (obj e') (ledger w)) (tx e') (delete k (held w)))
          | Aborted err _ => Raised err
          end
      | _, _ => IllTyped
      end
  | UpdateFeeRate pool new_fee_rate =>
      match pools (ledger w) !! pool with
      | Some p =>
          match update_fee_rate new_fee_rate (mkEnv p (work_tx w)) with
          | Ok _ e' => Next (mkWork (set_pool pool (obj e') (ledger w)) (tx e') (held w))
          | Aborted err _ => Raised err
          end
      | None => IllTyped
      end
  | PublicTransfer k recipient =>
      match has_key ab && has_store ab, held w !! k with
      | true, Some loan =>
          Next (mkWork (mkLedger (pools (ledger w))
                          (owned_loans (ledger w) ++ [(recipient, loan)]))
                  (work_tx w) (delete k (held w)))
      | _, _ => IllTyped
      end
  | Discard k =>
      match has_drop ab, held w !! k with
      | true, Some _ => Next (mkWork (ledger w) (work_tx w) (delete k (held w)))
      | _, _ => IllTyped
      end
  | Duplicate k =>
      match has_copy ab, held w !! k with
      | true, Some loan => Next (mkWork (ledger w) (work_tx w) (held w ++ [loan]))
      | _, _ => IllTyped
      end
  end.

(** A transaction commits its ledger, or is reverted as a whole by an
    abort, or is rejected before it runs. *)
Inductive verdict : Type :=
  | Committed (l : Ledger) (t : Tx)
  | Reverted (e : abort)
  | Rejected.

(** The transaction ends well only when no value without [drop] is left in
    the hands of the code. *)
Fixpoint run (ab : abilities) (clock : Clock) (cs : list command) (w : Work) : verdict :=
  match cs with
  | [] =>
      match has_drop ab, held w with
      | false, _ :: _ => Rejected
      | _, _ => Committed (ledger w) (work_tx w)
      end
  | c :: rest =>
      match step ab clock c w with
      | Next w' => run ab clock rest w'
      | Raised err => Reverted err
      | IllTyped => Rejected
      end
  end.

Definition unit_of_work (ab : abilities) (clock : Clock) (cs : list command)
  (l : Ledger) (t : Tx) : verdict :=
  run ab clock cs (mkWork l t []).

Fixpoint borrows (cs : list command) : nat :=
  match cs with
  | [] => 0
  | Borrow _ _ :: rest => S (borrows rest)
  | _ :: rest => borrows rest
  end.

Fixpoint repays (cs : list command) : nat :=
  match cs with
  | [] => 0
  | Repay _ _ _ :: rest => S (repays rest)
  | _ :: rest => repays rest
  end.

(** ** Inputs of the examples *)

(** The pool of the repository's tests (1 SUI, 0.3% fee, 0.5 SUI cap),
    created by [ADMIN] and used by [USER]. *)
Definition ADMIN : address := 10.
Definition USER : address := 20.
Definition test_pool : LiquidityPool :=
  mkLiquidityPool 77 (mkBalance 1000000000) 30 500000000 0 0 true ADMIN.
Definition user_tx : Tx := mkTx (mkTxContext USER 5 0) [] [].
Definition admin_tx : Tx := mkTx (mkTxContext ADMIN 6 0) [] [].
Definition test_env : Env LiquidityPool := mkEnv test_pool user_tx.
Definition noon : Clock := mkClock 1700000000000.

(** A pool of a coin with a large supply: half of the u64 range. *)
Definition large_pool : LiquidityPool :=
  mkLiquidityPool 78 (mkBalance 9223372036854775808) 30 9223372036854775808
    0 0 true ADMIN.

(** The obligation the tests create: 0.1 SUI at 0.3%. *)
Definition test_loan : FlashLoan := mkFlashLoan 91 100000000 300000 USER 77.

(** A pool that holds nearly the whole u64 range of its coin, at 0.01%. *)
Definition huge : u64 := 18446744073709000000.
Definition full_pool : LiquidityPool :=
  mkLiquidityPool 79 (mkBalance huge) 1 huge 0 0 true ADMIN.

(** The detector as [init] creates it, and two snapshots 20 bps apart. *)
Definition new_detector : ArbitrageDetector := mkArbitrageDetector 50 ∅ [] 10 100 ADMIN.
Definition detector_env : Env ArbitrageDetector := mkEnv new_detector user_tx.
Definition snapshot (id : address) (base quote : u64) : PoolInfo :=
  mkPoolInfo id "SUI" "USDC" base quote 30 "deepbook".

Definition empty_oracle : PriceOracle := mkPriceOracle 51 ∅ ∅ ADMIN.

(** Two pools of one coin type, and the ledger that holds them. *)
Definition second_pool : LiquidityPool :=
  mkLiquidityPool 88 (mkBalance 2000000000) 30 500000000 0 0 true ADMIN.
Definition two_pools : Ledger :=
  mkLedger (<[77 := test_pool]> (<[88 := second_pool]> ∅)) [].

(** ** The rest of [flash_loan] *)

(** [struct ArbitrageExecuted] (lines 37-44) *)
Record ArbitrageExecuted : Type := mkArbitrageExecuted {
  ae_executor : address;
  ae_pool_a : address;
  ae_pool_b : address;
  ae_amount_in : u64;
  ae_profit : u64;
  ae_timestamp : u64;
}.

(** The state of a call that works on [X] and emits events of type [E]. *)
Record Call (X E : Type) : Type := mkCall {
  target : X;
  call_ctx : TxContext;
  emitted : list E;
}.
Arguments mkCall {X E} target call_ctx emitted.
Arguments target {X E} c.
Arguments call_ctx {X E} c.
Arguments emitted {X E} c.

Definition call_sender {X E} : M (Call X E) address :=
  reads (fun c => sender (call_ctx c)).
Definition call_emit {X E} (e : E) : M (Call X E) unit :=
  modify (fun c => mkCall (target c) (call_ctx c) (emitted c ++ [e])).
Definition set_target {X E} (x : X) (c : Call X E) : Call X E :=
  mkCall x (call_ctx c) (emitted c).
Definition on_target {X E A} (m : M X A) : M (Call X E) A := zoom target set_target m.

(** [public entry fun execute_arbitrage<TokenA, TokenB>] (lines 188-211);
    the target is the pair [(pool_a, pool_b)]. *)
Definition execute_arbitrage (amount min_profit : u64) (clock : Clock)
  : M (Call (LiquidityPool * LiquidityPool) ArbitrageExecuted) unit :=
  let! executor := call_sender in
  let! profit := u64_div amount 100 in
  assert (min_profit <=? profit) 100 ;;
  let! both := reads target in
  call_emit (mkArbitrageExecuted executor
               (uid_to_address (pool_uid (fst both)))
               (uid_to_address (pool_uid (snd both)))
               amount profit (timestamp_ms clock)).

(** Every call of [flash_loan] that takes a pool by [&mut]. *)
Inductive entry_call : Type :=
  | entry_pool_call (c : pool_call)
  | entry_update_fee_rate (new_fee_rate : u64).

Definition run_entry (c : entry_call) : M (Env LiquidityPool) unit :=
  match c with
  | entry_pool_call c => run_call c
  | entry_update_fee_rate r => update_fee_rate r
  end.

(** The shared pool after a history of transactions, one call each. *)
Definition pool_next (t : Tx) (c : entry_call) (p : LiquidityPool) : LiquidityPool :=
  obj (commit (run_entry c) (mkEnv p t)).

Fixpoint pool_history (calls : list (Tx * entry_call)) (p : LiquidityPool)
  : LiquidityPool :=
  match calls with
  | [] => p
  | (t, c) :: rest => pool_history rest (pool_next t c p)
  end.

(** The obligations and payments of a history are u64 values. *)
Definition entry_call_wf (c : entry_call) : Prop :=
  match c with
  | entry_pool_call (call_repay payment loan _) =>
      0 <= loan_fee loan /\ 0 <= loan_amount loan /\ 0 <= coin_value payment
  | entry_pool_call (call_borrow amount _) => 0 <= amount
  | _ => True
  end.



(** ** Tables with keys of any type *)

Module table.
Section Table.
Context {K : Type} `{Countable K} {V : Type}.

(** [sui::dynamic_field::EFieldDoesNotExist] *)
Definition EFieldDoesNotExist : Z := 1.

(** [sui::table::contains] *)
Definition contains (t : gmap K V) (k : K) : bool :=
  match t !! k with Some _ => true | None => false end.

(** [sui::table::borrow]: aborts when the key is absent *)
Definition borrow (k : K) : M (gmap K V) V :=
  fun t =>
    match t !! k with
    | Some v => Ok v t
    | None => Aborted (FrameworkAbort "dynamic_field" EFieldDoesNotExist) t
    end.

(** [*sui::table::borrow_mut(&mut t, k) = v] *)
Definition assign (k : K) (v : V) : M (gmap K V) unit :=
  fun t =>
    match t !! k with
    | Some _ => Ok tt (<[k := v]> t)
    | None => Aborted (FrameworkAbort "dynamic_field" EFieldDoesNotExist) t
    end.

(** [sui::table::add]: aborts when the key is present *)
Definition add (k : K) (v : V) : M (gmap K V) unit :=
  fun t =>
    match t !! k with
    | Some _ => Aborted (FrameworkAbort "dynamic_field" EFieldAlreadyExists) t
    | None => Ok tt (<[k := v]> t)
    end.

(** [sui::table::length] *)
Definition length (t : gmap K V) : u64 := Z.of_nat (size t).
End Table.
End table.

(** ** The admin side of [arbitrage_detector] *)

Module arbitrage_detector.

Definition EInvalidPool : Z := 0.
Definition EProfitTooLow : Z := 1.
Definition EInvalidPrice : Z := 2.
Definition EUnauthorized : Z := 3.

Definition set_registered_pools (l : list address) (d : ArbitrageDetector)
  : ArbitrageDetector :=
  mkArbitrageDetector (detector_uid d) (opportunities d) l
    (min_profit_threshold d) (max_opportunities d) (detector_admin d).
Definition set_prices (m : gmap string u64) (o : PriceOracle) : PriceOracle :=
  mkPriceOracle (oracle_uid o) m (last_updated o) (oracle_admin o).
Definition set_last_updated (m : gmap string u64) (o : PriceOracle) : PriceOracle :=
  mkPriceOracle (oracle_uid o) (prices o) m (oracle_admin o).

(** [vector::contains] *)
Fixpoint vector_contains (v : list address) (x : address) : bool :=
  match v with
  | [] => false
  | y :: rest => if y =? x then true else vector_contains rest x
  end.

(** [vector::push_back] *)
Definition vector_push_back (x : address) : M (list address) unit :=
  modify (fun v => v ++ [x]).

(** What [init] shares. *)
Record Published : Type := mkPublished {
  pub_tx : Tx;
  pub_oracles : list PriceOracle;
  pub_detectors : list ArbitrageDetector;
}.
Definition set_pub_tx (t : Tx) (s : Published) : Published :=
  mkPublished t (pub_oracles s) (pub_detectors s).
Definition new_object : M Published UID := zoom pub_tx set_pub_tx object_new.

(** [fun init] (lines 325-343); [table::new] takes an object id of its own. *)
Definition init : M Published unit :=
  let! oracle_id := new_object in
  let! _ := new_object in
  let! _ := new_object in
  let! oracle_admin := zoom pub_tx set_pub_tx tx_sender in
  let oracle := mkPriceOracle oracle_id ∅ ∅ oracle_admin in
  modify (fun s => mkPublished (pub_tx s) (pub_oracles s ++ [oracle])
                     (pub_detectors s)) ;;
  let! detector_id := new_object in
  let! _ := new_object in
  let! detector_admin := zoom pub_tx set_pub_tx tx_sender in
  let detector := mkArbitrageDetector detector_id ∅ [] 10 100 detector_admin in
  modify (fun s => mkPublished (pub_tx s) (pub_oracles s)
                     (pub_detectors s ++ [detector])).

(** [public entry fun register_pool] (lines 346-355) *)
Definition register_pool (pool_id : address) : M (Env ArbitrageDetector) unit :=
  let! caller := in_tx tx_sender in
  let! detector := reads obj in
  assert (caller =? detector_admin detector) EUnauthorized ;;
  if negb (vector_contains (registered_pools detector) pool_id)
  then in_obj (zoom registered_pools set_registered_pools (vector_push_back pool_id))
  else ret tt.

(** [public entry fun update_price] (lines 358-377) *)
Definition update_price (token_name : string) (price : u64) (clock : Clock)
  : M (Env PriceOracle) unit :=
  let! caller := in_tx tx_sender in
  let! oracle := reads obj in
  assert (caller =? oracle_admin oracle) EUnauthorized ;;
  assert (0 <? price) EInvalidPrice ;;
  let current_time := timestamp_ms clock in
  if table.contains (prices oracle) token_name then
    in_obj (zoom prices set_prices (table.assign token_name price)) ;;
    in_obj (zoom last_updated set_last_updated (table.assign token_name current_time))
  else
    in_obj (zoom prices set_prices (table.add token_name price)) ;;
    in_obj (zoom last_updated set_last_updated (table.add token_name current_time)).

(** [public fun get_price] (lines 542-548) *)
Definition get_price (token_name : string) : M PriceOracle u64 :=
  let! oracle := get in
  if table.contains (prices oracle) token_name
  then zoom prices set_prices (table.borrow token_name)
  else ret 0.

(** [public fun get_registered_pools] (lines 550-552) *)
Definition get_registered_pools (detector : ArbitrageDetector) : list address :=
  registered_pools detector.

(** The two tables of an oracle have the same keys, and no price is 0. *)
Definition oracle_wf (o : PriceOracle) : Prop :=
  (forall k, is_Some (prices o !! k) <-> is_Some (last_updated o !! k))
  /\ (forall k p, prices o !! k = Some p -> 0 < p).

(** The oracle after the transaction [t] called [update_price]. *)
Definition oracle_next (t : Tx) (token_name : string) (price : u64) (clock : Clock)
  (o : PriceOracle) : PriceOracle :=
  obj (commit (update_price token_name price clock) (mkEnv o t)).

Fixpoint oracle_history (calls : list (Tx * string * u64 * Clock)) (o : PriceOracle)
  : PriceOracle :=
  match calls with
  | [] => o
  | (t, name, price, clock) :: rest =>
      oracle_history rest (oracle_next t name price clock o)
  end.

(** The detector after the transaction [t] called [register_pool]. *)
Definition detector_next (t : Tx) (pool_id : address) (d : ArbitrageDetector)
  : ArbitrageDetector :=
  obj (commit (register_pool pool_id) (mkEnv d t)).

Fixpoint detector_history (calls : list (Tx * address)) (d : ArbitrageDetector)
  : ArbitrageDetector :=
  match calls with
  | [] => d
  | (t, pool_id) :: rest => detector_history rest (detector_next t pool_id d)
  end.

(** The price that a history of [update_price] calls leaves for [name]:
    that of the last call made by [admin] with a price above 0, or the one
    held before. *)
Fixpoint accepted_price (admin : address) (name : string)
  (calls : list (Tx * string * u64 * Clock)) (before : option u64) : option u64 :=
  match calls with
  | [] => before
  | (t, n, price, _) :: rest =>
      accepted_price admin name rest
        (if (sender (ctx t) =? admin) && (0 <? price) && String.eqb n name
         then Some price else before)
  end.

End arbitrage_detector.

(** ** Module [deepbook_integration] *)

Module deepbook_integration.

(** [struct PoolConfig has store, copy, drop] *)
Record PoolConfig : Type := mkPoolConfig {
  pool_id : address;
  base_asset : string;
  quote_asset : string;
  network : string;
  active : bool;
}.

(** [struct DeepBookManager has key] *)
Record DeepBookManager : Type := mkDeepBookManager {
  id : UID;
  registered_pools : gmap string PoolConfig;
  balance_managers : gmap address address;
  admin : address;
}.

(** [struct FlashLoanExecution has copy, drop] *)
Record FlashLoanExecution : Type := mkFlashLoanExecution {
  executor : address;
  exec_pool_id : address;
  amount : u64;
  profit : u64;
  exec_network : string;
  timestamp : u64;
}.

Definition EUnauthorized : Z := 0.
Definition EInvalidNetwork : Z := 1.
Definition EPoolNotFound : Z := 2.
Definition EInsufficientLiquidity : Z := 3.

Definition set_registered_pools (m : gmap string PoolConfig) (d : DeepBookManager)
  : DeepBookManager :=
  mkDeepBookManager (id d) m (balance_managers d) (admin d).

(** The manager with [c] registered under [k]. *)
Definition manager_with (m : DeepBookManager) (k : string) (c : PoolConfig)
  : DeepBookManager :=
  set_registered_pools (<[k := c]> (registered_pools m)) m.

(** The state of every call of the module: the manager behind
    [manager: &mut DeepBookManager], the context and the events. *)
Definition State : Type := Call DeepBookManager FlashLoanExecution.

Definition on_pools {A} (m : M (gmap string PoolConfig) A) : M State A :=
  on_target (zoom registered_pools set_registered_pools m).

(** [public entry fun register_pool] (lines 57-81) *)
Definition register_pool (network : string) (pool_id : address)
  (base_asset quote_asset : string) : M State unit :=
  let! caller := call_sender in
  let! manager := reads target in
  assert (caller =? admin manager) EUnauthorized ;;
  let key := network in
  let config := mkPoolConfig pool_id base_asset quote_asset network true in
  if table.contains (registered_pools manager) key
  then on_pools (table.assign key config)
  else on_pools (table.add key config).

(** [public entry fun setup_testnet_pools] (lines 84-108) *)
Definition setup_testnet_pools : M State unit :=
  let! caller := call_sender in
  let! manager := reads target in
  assert (caller =? admin manager) EUnauthorized ;;
  register_pool "testnet_sui_usdc" 0x123456789abcdef "SUI" "USDC" ;;
  register_pool "testnet_sui_usdt" 0x987654321fedcba "SUI" "USDT".

(** [public entry fun execute_deepbook_flash_loan<T>] (lines 138-167) *)
Definition execute_deepbook_flash_loan (network : string) (amount : u64)
  : M State unit :=
  let! executor := call_sender in
  let! manager := reads target in
  assert (table.contains (registered_pools manager) network) EPoolNotFound ;;
  let! pool_config := on_pools (table.borrow network) in
  assert (active pool_config) EPoolNotFound ;;
  let! simulated_profit := u64_div amount 200 in
  call_emit (mkFlashLoanExecution executor (pool_id pool_config) amount
               simulated_profit network 0).

(** [public entry fun execute_cross_network_arbitrage] (lines 170-204) *)
Definition execute_cross_network_arbitrage (testnet_pool mainnet_pool : string)
  (amount : u64) : M State unit :=
  let! executor := call_sender in
  let! manager := reads target in
  assert (table.contains (registered_pools manager) testnet_pool) EPoolNotFound ;;
  assert (table.contains (registered_pools manager) mainnet_pool) EPoolNotFound ;;
  let! testnet_config := on_pools (table.borrow testnet_pool) in
  let! mainnet_config := on_pools (table.borrow mainnet_pool) in
  let! estimated_profit := u64_div amount 50 in
  call_emit (mkFlashLoanExecution executor (pool_id testnet_config) amount
               estimated_profit "cross_network" 0).

(** [public entry fun execute_liquidation_arbitrage] (lines 207-235) *)
Definition execute_liquidation_arbitrage (network : string)
  (collateral_amount debt_amount : u64) : M State unit :=
  let! executor := call_sender in
  let! manager := reads target in
  assert (table.contains (registered_pools manager) network) EPoolNotFound ;;
  let! pool_config := on_pools (table.borrow network) in
  let! scaled := u64_mul debt_amount 500 in
  let! liquidation_reward := u64_div scaled 10000 in
  call_emit (mkFlashLoanExecution executor (pool_id pool_config) debt_amount
               liquidation_reward network 0).

(** [public fun get_pool_config] (lines 238-240) *)
Definition get_pool_config (network : string) : M DeepBookManager PoolConfig :=
  zoom registered_pools set_registered_pools (table.borrow network).

(** [public fun is_pool_active] (lines 242-249) *)
Definition is_pool_active (network : string) : M DeepBookManager bool :=
  let! manager := get in
  if table.contains (registered_pools manager) network then
    let! config := zoom registered_pools set_registered_pools (table.borrow network) in
    ret (active config)
  else ret false.

(** [public fun get_registered_networks] (lines 251-253) *)
Definition get_registered_networks (manager : DeepBookManager) : u64 :=
  table.length (registered_pools manager).

(** Every registered configuration is active. *)
Definition all_active (manager : DeepBookManager) : Prop :=
  forall k c, registered_pools manager !! k = Some c -> active c = true.

(** The calls of the module that take the manager by [&mut]. *)
Inductive manager_call : Type :=
  | call_register_pool (network : string) (pool_id : address)
      (base_asset quote_asset : string)
  | call_setup_testnet_pools
  | call_execute_deepbook_flash_loan (network : string) (amount : u64)
  | call_execute_cross_network_arbitrage (testnet_pool mainnet_pool : string)
      (amount : u64)
  | call_execute_liquidation_arbitrage (network : string)
      (collateral_amount debt_amount : u64).

Definition run_manager_call (c : manager_call) : M State unit :=
  match c with
  | call_register_pool n p b q => register_pool n p b q
  | call_setup_testnet_pools => setup_testnet_pools
  | call_execute_deepbook_flash_loan n a => execute_deepbook_flash_loan n a
  | call_execute_cross_network_arbitrage t m a =>
      execute_cross_network_arbitrage t m a
  | call_execute_liquidation_arbitrage n c d => execute_liquidation_arbitrage n c d
  end.

(** The manager after the transaction of context [c] made the call. *)
Definition manager_next (c : TxContext) (call : manager_call) (m : DeepBookManager)
  : DeepBookManager :=
  target (commit (run_manager_call call) (mkCall m c [])).

Fixpoint manager_history (calls : list (TxContext * manager_call))
  (m : DeepBookManager) : DeepBookManager :=
  match calls with
  | [] => m
  | (c, call) :: rest => manager_history rest (manager_next c call m)
  end.

End deepbook_integration.

(** ** Inputs of the further examples *)

(** A manager as [init] creates it, one with a network registered, and one
    whose two networks are both inactive. *)
Definition fresh_manager : deepbook_integration.DeepBookManager :=
  deepbook_integration.mkDeepBookManager 60 ∅ ∅ ADMIN.
Definition testnet_config : deepbook_integration.PoolConfig :=
  deepbook_integration.mkPoolConfig 291 "SUI" "USDC" "testnet" true.
Definition testnet_manager : deepbook_integration.DeepBookManager :=
  deepbook_integration.mkDeepBookManager 60 {[ "testnet" := testnet_config ]} ∅ ADMIN.
Definition paused_a : deepbook_integration.PoolConfig :=
  deepbook_integration.mkPoolConfig 291 "SUI" "USDC" "a" false.
Definition paused_b : deepbook_integration.PoolConfig :=
  deepbook_integration.mkPoolConfig 292 "SUI" "USDT" "b" false.
Definition paused_manager : deepbook_integration.DeepBookManager :=
  deepbook_integration.mkDeepBookManager 60
    (<[ "a" := paused_a ]> {[ "b" := paused_b ]}) ∅ ADMIN.
Definition called_by (who : address) (m : deepbook_integration.DeepBookManager)
  : deepbook_integration.State :=
  mkCall m (mkTxContext who 5 0) [].

(** * Properties *)

(** ** Symbolic execution *)

Ltac unfold_monad :=
  unfold in_tx, in_obj, zoom, tx_sender, emit, share_object, coin_from_balance,
    coin_into_balance, object_new, object_delete, balance_join, balance_split,
    table_add, assert, u64_add, u64_sub, u64_mul, u64_div, bind, ret, raise,
    get, put, reads, modify in *.

Lemma leb_true (a b : Z) : a <= b -> (a <=? b) = true.
Proof. apply Z.leb_le. Qed.
Lemma leb_false (a b : Z) : b < a -> (a <=? b) = false.
Proof. apply Z.leb_gt. Qed.
Lemma ltb_true (a b : Z) : a < b -> (a <? b) = true.
Proof. apply Z.ltb_lt. Qed.
Lemma ltb_false (a b : Z) : b <= a -> (a <? b) = false.
Proof. apply Z.ltb_ge. Qed.
Lemma eqb_true (a b : Z) : a = b -> (a =? b) = true.
Proof. apply Z.eqb_eq. Qed.
Lemma eqb_false (a b : Z) : a <> b -> (a =? b) = false.
Proof. apply Z.eqb_neq. Qed.

(** Decide the tests of a path from the arithmetic facts at hand. *)
Ltac decide_tests :=
  repeat first
    [ rewrite leb_true by (simpl in *; lia)
    | rewrite leb_false by (simpl in *; lia)
    | rewrite ltb_true by (simpl in *; lia)
    | rewrite ltb_false by (simpl in *; lia)
    | rewrite eqb_true by (simpl in *; lia)
    | rewrite eqb_false by (simpl in *; lia) ];
  cbn [value obj tx ctx sender].

(** ** [borrow] *)

Lemma borrow_ok (e : Env LiquidityPool) (amount : u64) (clock : Clock) :
  active (obj e) = true ->
  amount <= max_loan_amount (obj e) ->
  amount <= value (balance (obj e)) ->
  amount * fee_rate (obj e) <= MAX_U64 ->
  total_loans_issued (obj e) + 1 <= MAX_U64 ->
  exists e',
    borrow amount clock e =
      Ok (mkCoin (derive_id (tx_hash (ctx (tx e))) (ids_created (ctx (tx e))))
                 (mkBalance amount),
          mkFlashLoan (derive_id (tx_hash (ctx (tx e))) (ids_created (ctx (tx e)) + 1))
                      amount (amount * fee_rate (obj e) / 10000)
                      (sender (ctx (tx e))) (pool_uid (obj e))) e'
    /\ obj e' = pool_after_borrow amount (obj e)
    /\ sender (ctx (tx e')) = sender (ctx (tx e)).
Proof.
  destruct e as [p t]; cbn [obj tx]. intros Ha Hmax Hbal Hmul Hcnt.
  unfold borrow, balance_value. unfold_monad. cbn [obj tx].
  rewrite Ha. decide_tests. cbn.
  decide_tests.
  eexists; split; [reflexivity|]. split; reflexivity.
Qed.

(** Case analysis on the tests of a run that is known to have returned. *)
Ltac case_tests H :=
  repeat match type of H with
         | context [if ?c then _ else _] =>
             let E := fresh "E" in destruct c eqn:E; cbn in H; try discriminate H
         end.

Ltac to_lia :=
  repeat match goal with
         | H : (_ <=? _) = true |- _ => apply Z.leb_le in H
         | H : (_ <=? _) = false |- _ => apply Z.leb_gt in H
         | H : (_ <? _) = true |- _ => apply Z.ltb_lt in H
         | H : (_ <? _) = false |- _ => apply Z.ltb_ge in H
         | H : (_ =? _) = true |- _ => apply Z.eqb_eq in H
         | H : (_ =? _) = false |- _ => apply Z.eqb_neq in H
         end.

Lemma borrow_inv (e e' : Env LiquidityPool) (amount : u64) (clock : Clock)
  (coin : Coin) (loan : FlashLoan) :
  borrow amount clock e = Ok (coin, loan) e' ->
  active (obj e) = true
  /\ amount <= max_loan_amount (obj e)
  /\ amount <= value (balance (obj e))
  /\ amount * fee_rate (obj e) <= MAX_U64
  /\ total_loans_issued (obj e) + 1 <= MAX_U64
  /\ coin_value coin = amount
  /\ loan_amount loan = amount
  /\ loan_fee loan = amount * fee_rate (obj e) / 10000
  /\ loan_borrower loan = sender (ctx (tx e))
  /\ loan_pool_id loan = pool_uid (obj e)
  /\ obj e' = pool_after_borrow amount (obj e).
Proof.
  destruct e as [p t]; cbn [obj tx]. intros H.
  unfold borrow, balance_value in H. unfold_monad. cbn in H.
  case_tests H. to_lia.
  injection H as <- <- <-. cbn. repeat split; auto; lia.
Qed.

Lemma borrow_not_active (e : Env LiquidityPool) (amount : u64) (clock : Clock) :
  active (obj e) = false ->
  borrow amount clock e = Aborted (AbortCode EPoolNotActive) e.
Proof.
  destruct e as [p t]; cbn [obj tx]. intros Ha.
  unfold borrow. unfold_monad. cbn. rewrite Ha. reflexivity.
Qed.

Lemma borrow_max_exceeded (e : Env LiquidityPool) (amount : u64) (clock : Clock) :
  active (obj e) = true ->
  max_loan_amount (obj e) < amount ->
  borrow amount clock e = Aborted (AbortCode EMaxLoanExceeded) e.
Proof.
  destruct e as [p t]; cbn [obj tx]. intros Ha Hmax.
  unfold borrow. unfold_monad. cbn. rewrite Ha. decide_tests. reflexivity.
Qed.

Lemma borrow_insufficient (e : Env LiquidityPool) (amount : u64) (clock : Clock) :
  active (obj e) = true ->
  amount <= max_loan_amount (obj e) ->
  value (balance (obj e)) < amount ->
  borrow amount clock e = Aborted (AbortCode EInsufficientBalance) e.
Proof.
  destruct e as [p t]; cbn [obj tx]. intros Ha Hmax Hbal.
  unfold borrow, balance_value. unfold_monad. cbn. rewrite Ha. decide_tests.
  reflexivity.
Qed.

Lemma borrow_overflow (e : Env LiquidityPool) (amount : u64) (clock : Clock) :
  active (obj e) = true ->
  amount <= max_loan_amount (obj e) ->
  amount <= value (balance (obj e)) ->
  MAX_U64 < amount * fee_rate (obj e) ->
  borrow amount clock e = Aborted ArithmeticError e.
Proof.
  destruct e as [p t]; cbn [obj tx]. intros Ha Hmax Hbal Hmul.
  unfold borrow, balance_value. unfold_monad. cbn. rewrite Ha. decide_tests.
  reflexivity.
Qed.

(** C2, as the code has it.  When the pool is active, [amount] is within
    [max_loan_amount] and within the balance, and both [amount * fee_rate]
    and [total_loans_issued + 1] fit in a u64, [borrow] returns: the coin is
    worth [amount], the pool's balance drops by [amount], the obligation
    records [amount], [fee = amount * fee_rate / 10000] (rounded down), the
    caller as borrower and the pool's id, and [total_loans_issued] grows by
    one.  The three precondition checks abort in this order, each before
    anything is written: an inactive pool gives [EPoolNotActive]; otherwise
    [amount > max_loan_amount] gives [EMaxLoanExceeded]; otherwise
    [balance < amount] gives [EInsufficientBalance]. *)
Theorem borrow_spec (e : Env LiquidityPool) (amount : u64) (clock : Clock) :
  (active (obj e) = true ->
   amount <= max_loan_amount (obj e) ->
   amount <= pool_balance (obj e) ->
   amount * fee_rate (obj e) <= MAX_U64 ->
   total_loans_issued (obj e) + 1 <= MAX_U64 ->
   exists coin loan e',
     borrow amount clock e = Ok (coin, loan) e'
     /\ coin_value coin = amount
     /\ pool_balance (obj e') = pool_balance (obj e) - amount
     /\ loan_amount loan = amount
     /\ loan_fee loan = amount * fee_rate (obj e) / 10000
     /\ loan_borrower loan = sender (ctx (tx e))
     /\ loan_pool_id loan = uid_to_address (pool_uid (obj e))
     /\ total_loans_issued (obj e') = total_loans_issued (obj e) + 1)
  /\ (active (obj e) = false ->
      borrow amount clock e = Aborted (AbortCode EPoolNotActive) e)
  /\ (active (obj e) = true ->
      max_loan_amount (obj e) < amount ->
      borrow amount clock e = Aborted (AbortCode EMaxLoanExceeded) e)
  /\ (active (obj e) = true ->
      amount <= max_loan_amount (obj e) ->
      pool_balance (obj e) < amount ->
      borrow amount clock e = Aborted (AbortCode EInsufficientBalance) e).
Proof.
  unfold pool_balance, balance_value. repeat split.
  - intros Ha Hmax Hbal Hmul Hcnt.
    destruct (borrow_ok e amount clock Ha Hmax Hbal Hmul Hcnt) as (e' & Hrun & Hobj & _).
    eexists _, _, e'. split; [exact Hrun|].
    rewrite Hobj. cbn. repeat split; reflexivity.
  - apply borrow_not_active.
  - apply borrow_max_exceeded.
  - apply borrow_insufficient.
Qed.

Lemma borrow_spec_witness :
  exists coin loan e',
    borrow 100000000 noon test_env = Ok (coin, loan) e'
    /\ coin_value coin = 100000000
    /\ pool_balance (obj e') = pool_balance (obj test_env) - 100000000
    /\ loan_amount loan = 100000000
    /\ loan_fee loan = 100000000 * fee_rate (obj test_env) / 10000
    /\ loan_borrower loan = sender (ctx (tx test_env))
    /\ loan_pool_id loan = uid_to_address (pool_uid (obj test_env))
    /\ total_loans_issued (obj e') = total_loans_issued (obj test_env) + 1.
Proof.
  apply (proj1 (borrow_spec test_env 100000000 noon)); vm_compute; congruence.
Defined.

(** C2 fails as stated: all three preconditions hold and [borrow] aborts,
    because [amount * fee_rate] does not fit in a u64; and on an inactive
    pool a request above the cap is answered with [EPoolNotActive]. *)
Lemma borrow_spec_counterexample :
  (active large_pool = true
   /\ 9223372036854775808 <= max_loan_amount large_pool
   /\ 9223372036854775808 <= pool_balance large_pool
   /\ borrow 9223372036854775808 noon (mkEnv large_pool user_tx)
      = Aborted ArithmeticError (mkEnv large_pool user_tx))
  /\ (max_loan_amount (set_active false test_pool) < 600000000
      /\ borrow 600000000 noon (mkEnv (set_active false test_pool) user_tx)
         <> Aborted (AbortCode EMaxLoanExceeded)
              (mkEnv (set_active false test_pool) user_tx)).
Proof.
  split.
  - repeat split; try (vm_compute; congruence).
  - split; [vm_compute; reflexivity|]. vm_compute. discriminate.
Qed.

(** ** [repay] *)

Lemma repay_unauthorized (e : Env LiquidityPool) (payment : Coin) (loan : FlashLoan)
  (clock : Clock) :
  sender (ctx (tx e)) <> loan_borrower loan ->
  repay payment loan clock e = Aborted (AbortCode EUnauthorizedAccess) e.
Proof.
  destruct e as [p t], loan as [id amount fee borrower pid]; cbn [obj tx loan_borrower].
  intros Hne. unfold repay. unfold_monad. cbn. decide_tests. reflexivity.
Qed.

Lemma repay_underpaid (e : Env LiquidityPool) (payment : Coin) (loan : FlashLoan)
  (clock : Clock) :
  sender (ctx (tx e)) = loan_borrower loan ->
  loan_amount loan + loan_fee loan <= MAX_U64 ->
  coin_value payment < loan_amount loan + loan_fee loan ->
  repay payment loan clock e = Aborted (AbortCode EInvalidRepayment) e.
Proof.
  destruct e as [p t], loan as [id amount fee borrower pid];
    cbn [obj tx loan_borrower loan_amount loan_fee].
  intros Heq Hfit Hlow. unfold repay. unfold_monad. cbn. decide_tests. reflexivity.
Qed.

Lemma repay_due_overflow (e : Env LiquidityPool) (payment : Coin) (loan : FlashLoan)
  (clock : Clock) :
  sender (ctx (tx e)) = loan_borrower loan ->
  MAX_U64 < loan_amount loan + loan_fee loan ->
  repay payment loan clock e = Aborted ArithmeticError e.
Proof.
  destruct e as [p t], loan as [id amount fee borrower pid];
    cbn [obj tx loan_borrower loan_amount loan_fee].
  intros Heq Hbig. unfold repay. unfold_monad. cbn. decide_tests. reflexivity.
Qed.

Lemma repay_ok (e : Env LiquidityPool) (payment : Coin) (loan : FlashLoan)
  (clock : Clock) :
  sender (ctx (tx e)) = loan_borrower loan ->
  0 <= loan_amount loan -> 0 <= loan_fee loan ->
  loan_amount loan + loan_fee loan <= coin_value payment ->
  value (balance (obj e)) + coin_value payment <= MAX_U64 ->
  0 <= value (balance (obj e)) ->
  total_fees_collected (obj e) + loan_fee loan <= MAX_U64 ->
  exists e',
    repay payment loan clock e = Ok tt e'
    /\ obj e' = pool_after_repay payment loan (obj e)
    /\ ctx (tx e') = ctx (tx e).
Proof.
  destruct e as [p t], loan as [id amount fee borrower pid];
    cbn [obj tx loan_borrower loan_amount loan_fee].
  intros Heq Ha Hf Hpay Hbal Hb0 Hfees.
  unfold repay, coin_value in *. unfold_monad. cbn. decide_tests.
  destruct (amount + fee <? value (coin_balance payment)) eqn:E; cbn;
    decide_tests; cbn; decide_tests;
    (eexists; split; [reflexivity|]; split; reflexivity).
Qed.

Lemma repay_inv (e e' : Env LiquidityPool) (payment : Coin) (loan : FlashLoan)
  (clock : Clock) :
  repay payment loan clock e = Ok tt e' ->
  sender (ctx (tx e)) = loan_borrower loan
  /\ loan_amount loan + loan_fee loan <= coin_value payment
  /\ obj e' = pool_after_repay payment loan (obj e).
Proof.
  destruct e as [p t], loan as [id amount fee borrower pid];
    cbn [obj tx loan_borrower loan_amount loan_fee].
  intros H. unfold repay, coin_value in *. unfold_monad. cbn in H.
  case_tests H; to_lia; injection H as <-; cbn; repeat split; auto; lia.
Qed.

(** C3, as the code has it.  A caller other than the obligation's borrower
    gets [EUnauthorizedAccess], whatever the payment.  The borrower who pays
    less than [amount + fee] gets [EInvalidRepayment], provided [amount + fee]
    fits in a u64.  Both aborts are raised in the state in which [repay]
    was entered: the pool's balance and counters have not been written. *)
Theorem repay_rejects (e : Env LiquidityPool) (payment : Coin) (loan : FlashLoan)
  (clock : Clock) :
  (loan_borrower loan <> sender (ctx (tx e)) ->
   repay payment loan clock e = Aborted (AbortCode EUnauthorizedAccess) e)
  /\ (loan_borrower loan = sender (ctx (tx e)) ->
      loan_amount loan + loan_fee loan <= MAX_U64 ->
      coin_value payment < loan_amount loan + loan_fee loan ->
      repay payment loan clock e = Aborted (AbortCode EInvalidRepayment) e)
  /\ (forall code e',
      repay payment loan clock e = Aborted (AbortCode code) e' ->
      pool_balance (obj e') = pool_balance (obj e)
      /\ pool_stats (obj e') = pool_stats (obj e)
      /\ commit (repay payment loan clock) e = e).
Proof.
  repeat split.
  - intros Hne. apply repay_unauthorized. congruence.
  - intros Heq Hfit Hlow. apply repay_underpaid; auto.
  - destruct e as [p t], loan as [id amount fee borrower pid].
    unfold repay, coin_value in *. unfold_monad. cbn in H.
    case_tests H; injection H as <- <-; reflexivity.
  - destruct e as [p t], loan as [id amount fee borrower pid].
    unfold repay, coin_value in *. unfold_monad. cbn in H.
    case_tests H; injection H as <- <-; reflexivity.
  - unfold commit. rewrite H. reflexivity.
Qed.

Lemma repay_rejects_witness :
  repay (mkCoin 92 (mkBalance 100000000)) test_loan noon test_env
  = Aborted (AbortCode EInvalidRepayment) test_env.
Proof.
  apply (proj1 (proj2 (repay_rejects test_env (mkCoin 92 (mkBalance 100000000))
                         test_loan noon))); vm_compute; congruence.
Defined.

(** C3 fails as stated: [borrow] issues an obligation whose [amount + fee]
    exceeds the u64 range; the borrower's underpayment of it is answered
    with an arithmetic abort, not with [EInvalidRepayment]. *)
Lemma repay_rejects_counterexample :
  exists coin loan e1,
    borrow huge noon (mkEnv full_pool user_tx) = Ok (coin, loan) e1
    /\ huge < MAX_U64 - 1
    /\ loan_borrower loan = sender (ctx (tx e1))
    /\ coin_value (mkCoin 92 (mkBalance 5)) < loan_amount loan + loan_fee loan
    /\ repay (mkCoin 92 (mkBalance 5)) loan noon e1 = Aborted ArithmeticError e1
    /\ repay (mkCoin 92 (mkBalance 5)) loan noon e1
       <> Aborted (AbortCode EInvalidRepayment) e1.
Proof.
  eexists _, _, _. split; [vm_compute; reflexivity|].
  split; [vm_compute; reflexivity|].
  split; [reflexivity|]. split; [vm_compute; reflexivity|].
  split; [vm_compute; reflexivity|]. vm_compute. discriminate.
Qed.

(** ** A borrow followed by its repayment *)

(** C4, as the code has it.  When [borrow] goes through and the sums of the
    repayment fit in a u64, a borrow of [amount] followed by the repayment
    of exactly [amount + fee] leaves the pool's balance larger by [fee],
    [total_loans_issued] larger by one and [total_fees_collected] larger by
    [fee]. *)
Theorem borrow_then_repay (e : Env LiquidityPool) (amount : u64) (payment : Coin)
  (clock : Clock) :
  active (obj e) = true ->
  0 <= amount ->
  0 <= fee_rate (obj e) ->
  amount <= max_loan_amount (obj e) ->
  amount <= pool_balance (obj e) ->
  amount * fee_rate (obj e) <= MAX_U64 ->
  total_loans_issued (obj e) + 1 <= MAX_U64 ->
  coin_value payment = amount + amount * fee_rate (obj e) / 10000 ->
  pool_balance (obj e) + amount * fee_rate (obj e) / 10000 <= MAX_U64 ->
  total_fees_collected (obj e) + amount * fee_rate (obj e) / 10000 <= MAX_U64 ->
  exists coin loan e1 e2,
    borrow amount clock e = Ok (coin, loan) e1
    /\ coin_value payment = loan_amount loan + loan_fee loan
    /\ repay payment loan clock e1 = Ok tt e2
    /\ pool_balance (obj e2) = pool_balance (obj e) + loan_fee loan
    /\ total_loans_issued (obj e2) = total_loans_issued (obj e) + 1
    /\ total_fees_collected (obj e2) = total_fees_collected (obj e) + loan_fee loan.
Proof.
  unfold pool_balance, balance_value.
  intros Ha H0 Hr Hmax Hbal Hmul Hcnt Hpay Hjoin Hfees.
  destruct (borrow_ok e amount clock Ha Hmax Hbal Hmul Hcnt) as (e1 & Hrun & Hobj & Hsnd).
  set (loan := mkFlashLoan _ _ _ _ _) in Hrun.
  assert (Hfee : 0 <= amount * fee_rate (obj e) / 10000)
    by (apply Z.div_pos; nia).
  pose proof (repay_ok e1 payment loan clock) as HR.
  rewrite Hobj in HR.
  cbn [loan loan_borrower loan_amount loan_fee pool_after_borrow
       set_total_loans_issued set_balance balance value total_fees_collected] in HR.
  destruct HR as (e2 & Hrep & Hobj2 & _); try lia.
  eexists _, loan, e1, e2. split; [exact Hrun|].
  split; [exact Hpay|]. split; [exact Hrep|].
  rewrite Hobj2. cbn. unfold coin_value in *. repeat split; lia.
Qed.

Lemma borrow_then_repay_witness :
  exists coin loan e1 e2,
    borrow 100000000 noon test_env = Ok (coin, loan) e1
    /\ coin_value (mkCoin 92 (mkBalance 100300000)) = loan_amount loan + loan_fee loan
    /\ repay (mkCoin 92 (mkBalance 100300000)) loan noon e1 = Ok tt e2
    /\ pool_balance (obj e2) = pool_balance (obj test_env) + loan_fee loan
    /\ total_loans_issued (obj e2) = total_loans_issued (obj test_env) + 1
    /\ total_fees_collected (obj e2)
       = total_fees_collected (obj test_env) + loan_fee loan.
Proof.
  apply (borrow_then_repay test_env 100000000 (mkCoin 92 (mkBalance 100300000)) noon);
    vm_compute; congruence.
Defined.

(** C4 fails as stated: on the tests' pool, a loan of 0.1 SUI repaid with
    exactly [amount + fee] leaves the balance 300000 above where it was. *)
Lemma borrow_then_repay_counterexample :
  exists coin loan e1 e2,
    borrow 100000000 noon test_env = Ok (coin, loan) e1
    /\ coin_value (mkCoin 92 (mkBalance 100300000)) = loan_amount loan + loan_fee loan
    /\ repay (mkCoin 92 (mkBalance 100300000)) loan noon e1 = Ok tt e2
    /\ pool_balance (obj test_env) = 1000000000
    /\ pool_balance (obj e2) = 1000300000
    /\ pool_balance (obj e2) <> pool_balance (obj test_env).
Proof.
  eexists _, _, _, _. split; [vm_compute; reflexivity|].
  split; [reflexivity|]. split; [vm_compute; reflexivity|].
  split; [reflexivity|]. split; [reflexivity|]. vm_compute. discriminate.
Qed.

(** ** [create_pool] *)

(** [create_pool] has no failing path: whatever the fee rate, it shares a
    pool with that rate, zeroed counters and [active = true]. *)
Lemma create_pool_total (initial_balance : Coin) (rate cap : u64) (t : Tx) :
  exists t',
    create_pool initial_balance rate cap t = Ok tt t'
    /\ shared_pools t' =
         shared_pools t ++
         [mkLiquidityPool (derive_id (tx_hash (ctx t)) (ids_created (ctx t)))
            (coin_balance initial_balance) rate cap 0 0 true (sender (ctx t))].
Proof.
  unfold create_pool. unfold_monad. cbn. eexists; split; reflexivity.
Qed.

(** C5 at a fee rate of 50%: [create_pool] returns and shares the pool,
    where the claim has it fail. *)
Theorem create_pool_accepts_fee_rate_5000 :
  1000 < 5000
  /\ exists t' pool,
       create_pool (mkCoin 1 (mkBalance 1000000000)) 5000 500000000 admin_tx
       = Ok tt t'
       /\ shared_pools t' = [pool]
       /\ pool_fee_rate pool = 5000
       /\ pool_stats pool = (0, 0, true).
Proof.
  split; [lia|]. eexists _, _. split; [vm_compute; reflexivity|].
  split; [reflexivity|]. split; reflexivity.
Qed.

(** ** [update_fee_rate] *)

Lemma update_fee_rate_inv (e e1 : Env LiquidityPool) (new_fee_rate : u64) :
  update_fee_rate new_fee_rate e = Ok tt e1 ->
  sender (ctx (tx e)) = admin (obj e)
  /\ new_fee_rate <= 1000
  /\ e1 = mkEnv (set_fee_rate new_fee_rate (obj e)) (tx e).
Proof.
  destruct e as [p t]. intros H. unfold update_fee_rate in H. unfold_monad. cbn in H.
  case_tests H. to_lia. injection H as <-. cbn. auto.
Qed.

Lemma update_fee_rate_too_high (e : Env LiquidityPool) (new_fee_rate : u64) :
  1000 < new_fee_rate ->
  exists err, update_fee_rate new_fee_rate e = Aborted err e.
Proof.
  destruct e as [p t]. intros Hhigh. unfold update_fee_rate. unfold_monad. cbn.
  destruct (sender (ctx t) =? admin p); cbn.
  - decide_tests. eexists; reflexivity.
  - eexists; reflexivity.
Qed.

Lemma pool_after_fee_rate (t : Tx) (c : pool_call) (p : LiquidityPool) :
  fee_rate (pool_after t c p) = fee_rate p.
Proof.
  unfold pool_after, commit.
  destruct (run_call c (mkEnv p t)) as [[] e'|err e'] eqn:Hrun; [|reflexivity].
  destruct c as [amount clock|payment loan clock|]; cbn in Hrun.
  - unfold bind at 1 in Hrun.
    destruct (borrow amount clock (mkEnv p t)) as [[coin loan] e1|] eqn:Hb;
      [|discriminate].
    injection Hrun as <-. apply borrow_inv in Hb.
    destruct Hb as (_ & _ & _ & _ & _ & _ & _ & _ & _ & _ & ->). reflexivity.
  - apply repay_inv in Hrun. destruct Hrun as (_ & _ & ->). reflexivity.
  - unfold toggle_pool_status in Hrun. unfold_monad. cbn in Hrun.
    case_tests Hrun. injection Hrun as <-. reflexivity.
Qed.

Lemma pool_after_all_fee_rate (calls : list (Tx * pool_call)) (p : LiquidityPool) :
  fee_rate (pool_after_all calls p) = fee_rate p.
Proof.
  revert p. induction calls as [|[t c] rest IH]; intros p; cbn; [reflexivity|].
  rewrite IH. apply pool_after_fee_rate.
Qed.

(** C9.  [update_fee_rate] aborts on every rate above 1000, before writing
    anything.  When it returns, the rate is at most 1000 and is the pool's
    rate; every later [borrow], in whatever transaction and after whatever
    borrows, repayments and status toggles, computes its fee with it, and
    returns when its own preconditions hold.  An obligation issued before
    the update keeps the fee computed with the rate of its own [borrow]:
    that is what its repayment adds to [total_fees_collected], and what the
    payment has to cover.  In a transaction that holds obligations, the
    update writes neither the held ones nor those at rest. *)
Theorem update_fee_rate_spec (e : Env LiquidityPool) (new_fee_rate : u64) :
  (1000 < new_fee_rate ->
   exists err, update_fee_rate new_fee_rate e = Aborted err e)
  /\ (forall e1,
      update_fee_rate new_fee_rate e = Ok tt e1 ->
      new_fee_rate <= 1000
      /\ pool_fee_rate (obj e1) = new_fee_rate
      /\ (forall calls t amount clock coin loan e2,
          borrow amount clock (mkEnv (pool_after_all calls (obj e1)) t)
          = Ok (coin, loan) e2 ->
          loan_fee loan = amount * new_fee_rate / 10000)
      /\ (forall calls t amount clock,
          active (pool_after_all calls (obj e1)) = true ->
          amount <= max_loan_amount (pool_after_all calls (obj e1)) ->
          amount <= pool_balance (pool_after_all calls (obj e1)) ->
          amount * new_fee_rate <= MAX_U64 ->
          total_loans_issued (pool_after_all calls (obj e1)) + 1 <= MAX_U64 ->
          exists coin loan e2,
            borrow amount clock (mkEnv (pool_after_all calls (obj e1)) t)
            = Ok (coin, loan) e2
            /\ loan_fee loan = amount * new_fee_rate / 10000)
      /\ (forall e0 amount0 clock0 coin0 old e0',
          borrow amount0 clock0 e0 = Ok (coin0, old) e0' ->
          obj e0' = obj e ->
          loan_fee old = amount0 * fee_rate (obj e0) / 10000
          /\ forall t payment clock e2,
             repay payment old clock (mkEnv (obj e1) t) = Ok tt e2 ->
             loan_amount old + loan_fee old <= coin_value payment
             /\ total_fees_collected (obj e2)
                = total_fees_collected (obj e1)
                  + amount0 * fee_rate (obj e0) / 10000))
  /\ (forall ab clock pool w w',
      step ab clock (UpdateFeeRate pool new_fee_rate) w = Next w' ->
      held w' = held w /\ owned_loans (ledger w') = owned_loans (ledger w)).
Proof.
  split; [apply update_fee_rate_too_high|]. split.
  - intros e1 Hupd. apply update_fee_rate_inv in Hupd.
    destruct Hupd as (_ & Hle & ->). cbn [obj].
    split; [exact Hle|]. split; [reflexivity|]. split; [|split].
    + intros calls t amount clock coin loan e2 Hb.
      apply borrow_inv in Hb. cbn [obj] in Hb.
      destruct Hb as (_ & _ & _ & _ & _ & _ & _ & Hfee & _).
      rewrite Hfee, pool_after_all_fee_rate. reflexivity.
    + intros calls t amount clock Ha Hmax Hbal Hmul Hcnt.
      pose proof (pool_after_all_fee_rate calls (set_fee_rate new_fee_rate (obj e)))
        as Hrate. cbn [set_fee_rate fee_rate] in Hrate.
      destruct (borrow_ok (mkEnv (pool_after_all calls
                                    (set_fee_rate new_fee_rate (obj e))) t)
                  amount clock) as (e2 & Hrun & _); cbn [obj]; auto.
      { rewrite Hrate. exact Hmul. }
      cbn [obj tx] in Hrun. rewrite Hrate in Hrun.
      eexists _, _, e2. split; [exact Hrun|]. reflexivity.
    + intros e0 amount0 clock0 coin0 old e0' Hb Hsame.
      apply borrow_inv in Hb.
      destruct Hb as (_ & _ & _ & _ & _ & _ & _ & Hfee & _).
      split; [exact Hfee|].
      intros t payment clock e2 Hrep. apply repay_inv in Hrep. cbn [obj tx] in Hrep.
      destruct Hrep as (_ & Hdue & ->). split; [exact Hdue|].
      rewrite <- Hfee. reflexivity.
  - intros ab clock pool w w' Hstep. unfold step in Hstep.
    destruct (pools (ledger w) !! pool) as [p|]; [|discriminate].
    destruct (update_fee_rate new_fee_rate _) as [[] e'|]; [|discriminate].
    injection Hstep as <-. split; reflexivity.
Qed.

Lemma update_fee_rate_spec_witness :
  exists e1 coin loan e2,
    update_fee_rate 50 (mkEnv test_pool admin_tx) = Ok tt e1
    /\ borrow 100000000 noon (mkEnv (pool_after_all [] (obj e1)) user_tx)
       = Ok (coin, loan) e2
    /\ loan_fee loan = 100000000 * 50 / 10000.
Proof.
  pose proof (proj1 (proj2 (update_fee_rate_spec (mkEnv test_pool admin_tx) 50))
                (mkEnv (set_fee_rate 50 test_pool) admin_tx) eq_refl)
    as (_ & _ & Hnew & _).
  eexists _, _, _, _. split; [reflexivity|]. split; [vm_compute; reflexivity|].
  eapply (Hnew [] user_tx 100000000 noon). vm_compute. reflexivity.
Defined.

(** ** The detectors *)

Lemma calculate_amm_price_ok {S} (info : PoolInfo) (s : S) :
  price_fits info ->
  calculate_amm_price (reserve_a info) (reserve_b info) s = Ok (spot_price info) s.
Proof.
  unfold price_fits, spot_price, calculate_amm_price, SCALE. unfold_monad.
  intros [H0|Hfit].
  - rewrite H0. reflexivity.
  - destruct (reserve_a info =? 0) eqn:E; [reflexivity|]. decide_tests. reflexivity.
Qed.

Lemma abs_diff_ok {S} (a b : u64) (s : S) :
  abs_diff a b s = Ok (Z.abs (a - b)) s.
Proof.
  unfold abs_diff. unfold_monad.
  destruct (b <? a) eqn:E; to_lia; decide_tests; f_equal; lia.
Qed.

Lemma relative_diff_ok {S} (d a b : u64) (s : S) :
  d * 10000 <= MAX_U64 -> a + b <= MAX_U64 -> (a + b) / 2 <> 0 ->
  relative_diff d a b s = Ok (d * 10000 / ((a + b) / 2)) s.
Proof.
  intros Hd Hab Havg. unfold relative_diff. unfold_monad. decide_tests. reflexivity.
Qed.

Lemma relative_diff_zero_average {S} (d a b : u64) (s : S) :
  (a + b) / 2 = 0 ->
  relative_diff d a b s = Aborted ArithmeticError s.
Proof.
  intros Havg. unfold relative_diff. unfold_monad.
  destruct (d * 10000 <=? MAX_U64); [|reflexivity].
  destruct (a + b <=? MAX_U64); [|reflexivity].
  cbn. rewrite Havg. reflexivity.
Qed.

Lemma detect_dex_arbitrage_below (e : Env ArbitrageDetector) (a b : PoolInfo)
  (clock : Clock) :
  price_fits a -> price_fits b ->
  Z.abs (spot_price a - spot_price b) * 10000 <= MAX_U64 ->
  spot_price a + spot_price b <= MAX_U64 ->
  (spot_price a + spot_price b) / 2 <> 0 ->
  relative_diff_bps (spot_price a) (spot_price b) <= min_profit_threshold (obj e) ->
  detect_dex_arbitrage a b clock e = Ok false e.
Proof.
  intros Ha Hb Hd Hsum Havg Hlow. unfold detect_dex_arbitrage.
  unfold bind at 1. rewrite calculate_amm_price_ok by assumption.
  unfold bind at 1. rewrite calculate_amm_price_ok by assumption.
  unfold bind at 1. rewrite abs_diff_ok.
  unfold bind at 1. rewrite relative_diff_ok by assumption.
  fold (relative_diff_bps (spot_price a) (spot_price b)).
  unfold bind at 1, reads. decide_tests. reflexivity.
Qed.

Lemma detect_dex_arbitrage_above (e : Env ArbitrageDetector) (a b : PoolInfo)
  (clock : Clock) :
  price_fits a -> price_fits b ->
  Z.abs (spot_price a - spot_price b) * 10000 <= MAX_U64 ->
  spot_price a + spot_price b <= MAX_U64 ->
  (spot_price a + spot_price b) / 2 <> 0 ->
  timestamp_ms clock + 300000 <= MAX_U64 ->
  opportunities (obj e) !! next_id (tx e) = None ->
  min_profit_threshold (obj e) < relative_diff_bps (spot_price a) (spot_price b) ->
  exists e',
    detect_dex_arbitrage a b clock e = Ok true e'
    /\ obj e' =
         set_opportunities
           (<[next_id (tx e) := dex_opportunity a b clock (next_id (tx e))]>
              (opportunities (obj e)))
           (obj e).
Proof.
  intros Ha Hb Hd Hsum Havg Hclk Hfresh Hhigh. unfold detect_dex_arbitrage.
  unfold bind at 1. rewrite calculate_amm_price_ok by assumption.
  unfold bind at 1. rewrite calculate_amm_price_ok by assumption.
  unfold bind at 1. rewrite abs_diff_ok.
  unfold bind at 1. rewrite relative_diff_ok by assumption.
  fold (relative_diff_bps (spot_price a) (spot_price b)).
  unfold bind at 1, reads. decide_tests.
  destruct e as [d t]. unfold next_id in *. cbn [obj tx] in *.
  unfold create_opportunity, uid_to_address. unfold_monad. cbn.
  decide_tests. cbn.
  match goal with
  | |- context [match ?x with Some _ => _ | None => _ end] =>
      replace x with (@None ArbitrageOpportunity) by (symmetry; exact Hfresh)
  end.
  eexists; split; reflexivity.
Qed.

(** C6, as the code has it.  For snapshots whose scaled reserves, scaled
    difference and price sum fit in a u64 and whose average price is not 0
    (with the clock 300000 ms away from the end of the u64 range, and the
    next object id not yet a key of the table), [detect_dex_arbitrage]
    returns; it returns [true] exactly when [relative_diff_bps] is above
    [min_profit_threshold]; on [true] the table has one new entry, of type
    "dex_arbitrage", with [expires_at = created_at + 300000]; on [false] the
    detector and the transaction are as they were. *)
Theorem detect_dex_arbitrage_spec (e : Env ArbitrageDetector) (a b : PoolInfo)
  (clock : Clock) :
  price_fits a -> price_fits b ->
  Z.abs (spot_price a - spot_price b) * 10000 <= MAX_U64 ->
  spot_price a + spot_price b <= MAX_U64 ->
  (spot_price a + spot_price b) / 2 <> 0 ->
  timestamp_ms clock + 300000 <= MAX_U64 ->
  opportunities (obj e) !! next_id (tx e) = None ->
  exists r e',
    detect_dex_arbitrage a b clock e = Ok r e'
    /\ (r = true <->
        min_profit_threshold (obj e) < relative_diff_bps (spot_price a) (spot_price b))
    /\ (r = true ->
        exists opp,
          opportunities (obj e') = <[next_id (tx e) := opp]> (opportunities (obj e))
          /\ opportunity_count (obj e') = opportunity_count (obj e) + 1
          /\ opportunity_type opp = "dex_arbitrage"
          /\ created_at opp = timestamp_ms clock
          /\ expires_at opp = created_at opp + 300000)
    /\ (r = false -> e' = e).
Proof.
  intros Ha Hb Hd Hsum Havg Hclk Hfresh.
  destruct (Z_lt_le_dec (min_profit_threshold (obj e))
              (relative_diff_bps (spot_price a) (spot_price b))) as [Hhigh|Hlow].
  - destruct (detect_dex_arbitrage_above e a b clock Ha Hb Hd Hsum Havg Hclk Hfresh Hhigh)
      as (e' & Hrun & Hobj).
    exists true, e'. split; [exact Hrun|]. split; [tauto|]. split; [|discriminate].
    intros _. eexists. rewrite Hobj. cbn [opportunities set_opportunities].
    split; [reflexivity|]. split.
    + unfold opportunity_count, table_length. cbn [opportunities set_opportunities].
      rewrite map_size_insert_None by exact Hfresh. lia.
    + repeat split.
  - exists false, e. split; [apply detect_dex_arbitrage_below; assumption|].
    split; [|split; [discriminate|reflexivity]].
    split; [discriminate|lia].
Qed.

Lemma detect_dex_arbitrage_spec_witness :
  exists r e',
    detect_dex_arbitrage (snapshot 1 1000000 1000000) (snapshot 2 1000000 1002000)
      noon detector_env = Ok r e'
    /\ (r = true <->
        min_profit_threshold (obj detector_env)
        < relative_diff_bps (spot_price (snapshot 1 1000000 1000000))
                            (spot_price (snapshot 2 1000000 1002000)))
    /\ (r = true ->
        exists opp,
          opportunities (obj e')
          = <[next_id (tx detector_env) := opp]> (opportunities (obj detector_env))
          /\ opportunity_count (obj e') = opportunity_count (obj detector_env) + 1
          /\ opportunity_type opp = "dex_arbitrage"
          /\ created_at opp = timestamp_ms noon
          /\ expires_at opp = created_at opp + 300000)
    /\ (r = false -> e' = detector_env).
Proof.
  apply (detect_dex_arbitrage_spec detector_env (snapshot 1 1000000 1000000)
           (snapshot 2 1000000 1002000) noon).
  - right. vm_compute. congruence.
  - right. vm_compute. congruence.
  - vm_compute. congruence.
  - vm_compute. congruence.
  - vm_compute. congruence.
  - vm_compute. congruence.
  - reflexivity.
Defined.

(** C6 fails as stated: the quote reserve of the first snapshot, scaled by
    10^6, leaves the u64 range; the relative difference is far above the
    threshold and the call aborts instead of returning [true]. *)
Lemma detect_dex_arbitrage_spec_counterexample :
  min_profit_threshold (obj detector_env)
  < relative_diff_bps (spot_price (snapshot 1 1 9223372036854775808))
                      (spot_price (snapshot 2 1 1))
  /\ detect_dex_arbitrage (snapshot 1 1 9223372036854775808) (snapshot 2 1 1)
       noon detector_env = Aborted ArithmeticError detector_env
  /\ forall e', detect_dex_arbitrage (snapshot 1 1 9223372036854775808) (snapshot 2 1 1)
                  noon detector_env <> Ok true e'.
Proof.
  split; [vm_compute; reflexivity|]. split; [vm_compute; reflexivity|].
  intros e'. vm_compute. discriminate.
Qed.

(** The worked figures of the specification: at a threshold of 10 bps,
    prices 1,000,000 and 1,002,000 are 19 bps apart and the detector fires;
    prices 1,000,000 and 1,000,500 are 4 bps apart and it does not. *)
Example detect_dex_arbitrage_fires :
  relative_diff_bps 1000000 1002000 = 19
  /\ exists e', detect_dex_arbitrage (snapshot 1 1000000 1000000)
                  (snapshot 2 1000000 1002000) noon detector_env = Ok true e'
                /\ opportunity_count (obj e') = 1.
Proof.
  split; [reflexivity|]. eexists. split; vm_compute; reflexivity.
Qed.

Example detect_dex_arbitrage_quiet :
  relative_diff_bps 1000000 1000500 = 4
  /\ detect_dex_arbitrage (snapshot 1 1000000 1000000)
       (snapshot 2 1000000 1000500) noon detector_env = Ok false detector_env.
Proof.
  split; vm_compute; reflexivity.
Qed.

(** C7 at two snapshots with an empty base reserve: both prices are 0 by
    the guard of [calculate_amm_price], their average is 0, and the
    relative difference divides by it. *)
Theorem detect_dex_arbitrage_divides_by_zero :
  calculate_amm_price 0 5000000 detector_env = Ok 0 detector_env
  /\ calculate_amm_price 0 7000000 detector_env = Ok 0 detector_env
  /\ (0 + 0) / 2 = 0
  /\ u64_div (0 * 10000) ((0 + 0) / 2) detector_env
     = Aborted ArithmeticError detector_env
  /\ relative_diff 0 0 0 detector_env = Aborted ArithmeticError detector_env
  /\ detect_dex_arbitrage (snapshot 1 0 5000000) (snapshot 2 0 7000000)
       noon detector_env = Aborted ArithmeticError detector_env.
Proof.
  repeat split; vm_compute; reflexivity.
Qed.

(** [detect_cross_chain_arbitrage] never writes the detector. *)
Lemma detect_cross_chain_arbitrage_detector (e : Env ArbitrageDetector)
  (oracle : PriceOracle) (sui_price external_price : u64) (clock : Clock)
  (r : bool) (e' : Env ArbitrageDetector) :
  detect_cross_chain_arbitrage oracle sui_price external_price clock e = Ok r e' ->
  obj e' = obj e.
Proof.
  destruct e as [d t]. intros H.
  unfold detect_cross_chain_arbitrage, abs_diff, relative_diff in H.
  unfold_monad. cbn in H.
  case_tests H; injection H as <- <-; reflexivity.
Qed.

(** C8 at prices 1% apart, with the threshold at 10 bps: the call returns
    [true] and emits its event, and the opportunity table is as it was,
    empty. *)
Theorem detect_cross_chain_arbitrage_records_nothing :
  exists e',
    detect_cross_chain_arbitrage empty_oracle 1000000 1010000 noon detector_env
    = Ok true e'
    /\ 2 * min_profit_threshold (obj detector_env) < relative_diff_bps 1000000 1010000
    /\ events (tx e')
       = [OpportunityDetected USER 1 2 "SUI/USD" 10000 99 5000000 "cross_chain"
            (timestamp_ms noon)]
    /\ opportunities (obj e') = opportunities (obj detector_env)
    /\ opportunity_count (obj e') = 0.
Proof.
  eexists. split; [vm_compute; reflexivity|].
  split; [vm_compute; reflexivity|]. repeat split.
Qed.

(** The worked figures of the specification: collateral 8000 against a debt
    of 10000 at a threshold of 8500 bps fires with a reward of 500. *)
Example detect_liquidation_opportunity_fires :
  exists e',
    detect_liquidation_opportunity 8000 10000 8500 noon detector_env = Ok true e'
    /\ events (tx e')
       = [OpportunityDetected USER 0 0 "COLLATERAL/DEBT" 2000 500 10000
            "liquidation" (timestamp_ms noon)].
Proof.
  eexists. split; vm_compute; reflexivity.
Qed.

(** A positive debt is not enough for the call to return: with the
    threshold above 100% a position can be flagged while its collateral
    exceeds the debt, and [debt_value - collateral_value] underflows. *)
Example detect_liquidation_opportunity_underflow :
  detect_liquidation_opportunity 12000 10000 15000 noon detector_env
  = Aborted ArithmeticError detector_env.
Proof. vm_compute. reflexivity. Qed.

(** C10.  With [debt_value = 0] the call aborts with the arithmetic error,
    whatever the other arguments and before anything is written: nothing
    guards the division of [collateral_value * 10000] by [debt_value].  A
    call that returns therefore had [debt_value > 0]. *)
Theorem detect_liquidation_opportunity_zero_debt (e : Env ArbitrageDetector)
  (collateral_value liquidation_threshold : u64) (clock : Clock) :
  detect_liquidation_opportunity collateral_value 0 liquidation_threshold clock e
  = Aborted ArithmeticError e
  /\ u64_div (collateral_value * 10000) 0 e = Aborted ArithmeticError e
  /\ forall debt_value r e',
       0 <= debt_value ->
       detect_liquidation_opportunity collateral_value debt_value
         liquidation_threshold clock e = Ok r e' ->
       0 < debt_value.
Proof.
  split; [|split].
  - unfold detect_liquidation_opportunity. unfold_monad.
    destruct (collateral_value * 10000 <=? MAX_U64); reflexivity.
  - reflexivity.
  - intros debt_value r e' Hpos Hrun.
    destruct (Z.eq_dec debt_value 0) as [->|Hne]; [|lia].
    unfold detect_liquidation_opportunity in Hrun. unfold_monad.
    destruct (collateral_value * 10000 <=? MAX_U64); discriminate Hrun.
Qed.

Lemma detect_liquidation_opportunity_zero_debt_witness :
  (exists e', detect_liquidation_opportunity 8000 10000 8500 noon detector_env
              = Ok true e')
  /\ 0 < 10000.
Proof.
  split; [eexists; vm_compute; reflexivity|].
  eapply (proj2 (proj2 (detect_liquidation_opportunity_zero_debt detector_env
                          8000 8500 noon)) 10000).
  - lia.
  - vm_compute. reflexivity.
Defined.

(** ** Units of work that hold obligations *)

(** A type that can be neither copied, dropped nor transferred is settled:
    a transaction that commits has repaid every obligation it held or
    borrowed, and left none at rest. *)
Lemma run_settles (ab : abilities) (clock : Clock) (cs : list command) (w : Work)
  (l' : Ledger) (t' : Tx) :
  has_copy ab = false -> has_drop ab = false -> has_key ab && has_store ab = false ->
  run ab clock cs w = Committed l' t' ->
  (length (held w) + borrows cs = repays cs)%nat
  /\ owned_loans l' = owned_loans (ledger w).
Proof.
  intros Hcopy Hdrop Hmove. revert w.
  induction cs as [|c rest IH]; intros w Hrun; cbn in Hrun.
  - rewrite Hdrop in Hrun. destruct (held w) eqn:Eh; [|discriminate].
    injection Hrun as <- <-. split; reflexivity.
  - destruct (step ab clock c w) as [w'| |] eqn:Hstep; try discriminate.
    apply IH in Hrun. destruct Hrun as [Hlen Hown].
    destruct c as [pool amount|pool payment k|pool rate|k recipient|k|k];
      unfold step in Hstep; cbn [borrows repays].
    + destruct (pools (ledger w) !! pool) as [p|]; [|discriminate].
      destruct (borrow amount clock _) as [[coin loan] e'|]; [|discriminate].
      injection Hstep as <-. cbn [held ledger owned_loans set_pool] in *.
      rewrite length_app in Hlen. cbn [length] in Hlen.
      split; [lia|exact Hown].
    + destruct (pools (ledger w) !! pool) as [p|]; [|discriminate].
      destruct (held w !! k) as [loan|] eqn:Ek; [|discriminate].
      destruct (repay payment loan clock _) as [[] e'|]; [|discriminate].
      injection Hstep as <-. cbn [held ledger owned_loans set_pool] in *.
      rewrite length_delete in Hlen by eauto.
      apply lookup_lt_Some in Ek. split; [lia|exact Hown].
    + destruct (pools (ledger w) !! pool) as [p|]; [|discriminate].
      destruct (update_fee_rate rate _) as [[] e'|]; [|discriminate].
      injection Hstep as <-. cbn [held ledger owned_loans set_pool] in *.
      split; [lia|exact Hown].
    + rewrite Hmove in Hstep. discriminate.
    + rewrite Hdrop in Hstep. discriminate.
    + rewrite Hcopy in Hstep. discriminate.
Qed.

Lemma hot_potato_settles (clock : Clock) (cs : list command) (l l' : Ledger)
  (t t' : Tx) :
  unit_of_work hot_potato clock cs l t = Committed l' t' ->
  borrows cs = repays cs /\ owned_loans l' = owned_loans l.
Proof.
  intros Hrun. apply run_settles in Hrun; auto.
Qed.

(** With no abilities the same pool is served as intended: the round trip
    commits, the transfer is not a transaction at all, and a transaction
    that stops after [borrow] is not one either. *)
Example hot_potato_round_trip :
  (exists l' t',
     unit_of_work hot_potato noon
       [Borrow 77 100000000; Repay 77 (mkCoin 92 (mkBalance 100300000)) 0]
       two_pools user_tx = Committed l' t'
     /\ (pool_balance <$> pools l' !! 77) = Some 1000300000)
  /\ unit_of_work hot_potato noon
       [Borrow 77 100000000; PublicTransfer 0 USER] two_pools user_tx = Rejected
  /\ unit_of_work hot_potato noon [Borrow 77 100000000] two_pools user_tx = Rejected
  /\ unit_of_work FlashLoan_abilities noon [Borrow 77 100000000] two_pools user_tx
     = Rejected.
Proof.
  split; [eexists _, _; split; vm_compute; reflexivity|].
  repeat split; vm_compute; reflexivity.
Qed.

(** C1 on the tests' pool.  First transaction: the caller borrows 0.1 SUI
    and hands the obligation to an address with [public_transfer], which
    [key, store] allows; the transaction commits with no [repay] in it,
    the pool is 0.1 SUI short, no fee was collected and the obligation is at
    rest, owned by the caller.  Second transaction: the obligation borrowed
    from pool 77 is repaid to pool 88, which [repay] accepts; pool 77 is
    0.1 SUI short and pool 88 holds the repayment. *)
Theorem obligation_outlives_its_transaction :
  (exists l' t' loan,
     unit_of_work FlashLoan_abilities noon
       [Borrow 77 100000000; PublicTransfer 0 USER] two_pools user_tx
     = Committed l' t'
     /\ repays [Borrow 77 100000000; PublicTransfer 0 USER] = 0%nat
     /\ owned_loans l' = [(USER, loan)]
     /\ loan_amount loan = 100000000
     /\ (pool_balance <$> pools l' !! 77) = Some 900000000
     /\ (total_fees_collected <$> pools l' !! 77) = Some 0)
  /\ (exists l' t',
       unit_of_work FlashLoan_abilities noon
         [Borrow 77 100000000; Repay 88 (mkCoin 92 (mkBalance 100300000)) 0]
         two_pools user_tx
       = Committed l' t'
       /\ (pool_balance <$> pools l' !! 77) = Some 900000000
       /\ (pool_balance <$> pools l' !! 88) = Some 2100300000).
Proof.
  split.
  - eexists _, _, _. split; [vm_compute; reflexivity|].
    repeat split; vm_compute; reflexivity.
  - eexists _, _. split; [vm_compute; reflexivity|].
    split; vm_compute; reflexivity.
Qed.

(** * Further properties *)

(** ** Pausing a pool *)

Lemma toggle_pool_status_run (e : Env LiquidityPool) :
  sender (ctx (tx e)) = admin (obj e) ->
  toggle_pool_status e
  = Ok tt (mkEnv (set_active (negb (active (obj e))) (obj e)) (tx e)).
Proof.
  destruct e as [p t]. cbn [obj tx]. intros Heq.
  unfold toggle_pool_status. unfold_monad. cbn. decide_tests. reflexivity.
Qed.

(** X1.  [toggle_pool_status] is for the admin alone: any other caller gets
    [EUnauthorizedAccess] before anything is written.  For the admin it
    flips [active] and nothing else, so two toggles give the pool back as it
    was. *)
Theorem toggle_pool_status_spec (e : Env LiquidityPool) :
  (sender (ctx (tx e)) <> admin (obj e) ->
   toggle_pool_status e = Aborted (AbortCode EUnauthorizedAccess) e)
  /\ (sender (ctx (tx e)) = admin (obj e) ->
      toggle_pool_status e
      = Ok tt (mkEnv (set_active (negb (active (obj e))) (obj e)) (tx e))
      /\ (toggle_pool_status ;; toggle_pool_status) e = Ok tt e).
Proof.
  destruct e as [p t]. cbn [obj tx]. split.
  - intros Hne. unfold toggle_pool_status. unfold_monad. cbn. decide_tests.
    reflexivity.
  - intros Heq. unfold toggle_pool_status. unfold_monad. cbn. decide_tests.
    split; [reflexivity|]. cbn. decide_tests. cbn.
    destruct p as [i b r m n f a ad]. cbn. rewrite negb_involutive. reflexivity.
Qed.

Lemma toggle_pool_status_spec_witness :
  (toggle_pool_status ;; toggle_pool_status) (mkEnv test_pool admin_tx)
  = Ok tt (mkEnv test_pool admin_tx).
Proof.
  apply (proj2 (toggle_pool_status_spec (mkEnv test_pool admin_tx))).
  reflexivity.
Defined.

Lemma repay_ignores_active (e : Env LiquidityPool) (payment : Coin) (loan : FlashLoan)
  (clock : Clock) (b : bool) :
  repay payment loan clock (mkEnv (set_active b (obj e)) (tx e))
  = match repay payment loan clock e with
    | Ok u e' => Ok u (mkEnv (set_active b (obj e')) (tx e'))
    | Aborted err e' => Aborted err (mkEnv (set_active b (obj e')) (tx e'))
    end.
Proof.
  destruct e as [p t], loan as [id amount fee borrower pid]. cbn [obj tx].
  unfold repay, coin_value. unfold_monad. cbn.
  repeat match goal with
         | |- context [if ?c then _ else _] => destruct c; cbn
         end; reflexivity.
Qed.

(** X2.  Once the admin has paused an active pool, every [borrow] on it, by
    anyone, aborts with [EPoolNotActive]; [repay] does not read [active], so
    an obligation is settled on the paused pool exactly as on the running
    one. *)
Theorem paused_pool_still_settles (e : Env LiquidityPool) :
  active (obj e) = true ->
  sender (ctx (tx e)) = admin (obj e) ->
  exists e1,
    toggle_pool_status e = Ok tt e1
    /\ active (obj e1) = false
    /\ (forall t amount clock,
        borrow amount clock (mkEnv (obj e1) t)
        = Aborted (AbortCode EPoolNotActive) (mkEnv (obj e1) t))
    /\ (forall t payment loan clock,
        repay payment loan clock (mkEnv (obj e1) t)
        = match repay payment loan clock (mkEnv (obj e) t) with
          | Ok u e' => Ok u (mkEnv (set_active false (obj e')) (tx e'))
          | Aborted err e' => Aborted err (mkEnv (set_active false (obj e')) (tx e'))
          end).
Proof.
  intros Hact Hadm.
  pose proof (toggle_pool_status_run e Hadm) as Hrun.
  rewrite Hact in Hrun. cbn [negb] in Hrun.
  eexists. split; [exact Hrun|]. cbn [obj]. split; [reflexivity|]. split.
  - intros t amount clock. apply borrow_not_active. reflexivity.
  - intros t payment loan clock.
    apply (repay_ignores_active (mkEnv (obj e) t) payment loan clock false).
Qed.

Lemma paused_pool_still_settles_witness :
  exists e1,
    toggle_pool_status (mkEnv test_pool admin_tx) = Ok tt e1
    /\ borrow 100000000 noon (mkEnv (obj e1) user_tx)
       = Aborted (AbortCode EPoolNotActive) (mkEnv (obj e1) user_tx)
    /\ exists e2,
         repay (mkCoin 92 (mkBalance 100300000)) test_loan noon (mkEnv (obj e1) user_tx)
         = Ok tt e2.
Proof.
  destruct (paused_pool_still_settles (mkEnv test_pool admin_tx) eq_refl eq_refl)
    as (e1 & Hrun & _ & Hb & Hr).
  exists e1. split; [exact Hrun|]. split; [apply Hb|].
  rewrite Hr. eexists. vm_compute. reflexivity.
Defined.

(** ** What a settled loan leaves in the pool *)



(** X4.  A payment above [amount + fee] is accepted whole: the pool's
    balance grows by the full payment, [total_fees_collected] by the fee
    only, the event reports the excess as [profit], and no coin is made for
    the payer (the object counter of the transaction does not move). *)
Theorem repay_keeps_overpayment (e : Env LiquidityPool) (payment : Coin)
  (loan : FlashLoan) (clock : Clock) :
  sender (ctx (tx e)) = loan_borrower loan ->
  0 <= loan_amount loan -> 0 <= loan_fee loan ->
  loan_amount loan + loan_fee loan < coin_value payment ->
  0 <= pool_balance (obj e) ->
  pool_balance (obj e) + coin_value payment <= MAX_U64 ->
  total_fees_collected (obj e) + loan_fee loan <= MAX_U64 ->
  exists e',
    repay payment loan clock e = Ok tt e'
    /\ pool_balance (obj e') = pool_balance (obj e) + coin_value payment
    /\ total_fees_collected (obj e') = total_fees_collected (obj e) + loan_fee loan
    /\ events (tx e')
       = events (tx e) ++
         [FlashLoanRepaid (loan_pool_id loan) (loan_borrower loan) (loan_amount loan)
            (loan_fee loan)
            (coin_value payment - loan_amount loan - loan_fee loan)
            (timestamp_ms clock)]
    /\ ctx (tx e') = ctx (tx e).
Proof.
  destruct e as [p t], loan as [id amount fee borrower pid].
  unfold pool_balance, balance_value, coin_value.
  cbn [obj tx loan_borrower loan_amount loan_fee loan_pool_id].
  intros Heq Ha Hf Hpay Hb0 Hbal Hfees.
  unfold repay, coin_value. unfold_monad. cbn. decide_tests. cbn.
  decide_tests. cbn. decide_tests.
  eexists. split; [reflexivity|]. cbn. repeat split.
Qed.

Lemma repay_keeps_overpayment_witness :
  exists e',
    repay (mkCoin 92 (mkBalance 250000000)) test_loan noon test_env = Ok tt e'
    /\ pool_balance (obj e') = pool_balance (obj test_env) + 250000000
    /\ total_fees_collected (obj e') = total_fees_collected (obj test_env) + 300000
    /\ events (tx e')
       = events (tx test_env) ++
         [FlashLoanRepaid 77 USER 100000000 300000 (250000000 - 100000000 - 300000)
            (timestamp_ms noon)]
    /\ ctx (tx e') = ctx (tx test_env).
Proof.
  apply (repay_keeps_overpayment test_env (mkCoin 92 (mkBalance 250000000))
           test_loan noon); vm_compute; congruence.
Defined.

(** ** Repeated loans *)




(** ** What no call changes *)

Lemma pool_next_cases (t : Tx) (c : entry_call) (p : LiquidityPool) :
  pool_next t c p = p
  \/ (exists amount clock,
        c = entry_pool_call (call_borrow amount clock)
        /\ amount <= value (balance p)
        /\ pool_next t c p = pool_after_borrow amount p)
  \/ (exists payment loan clock,
        c = entry_pool_call (call_repay payment loan clock)
        /\ loan_amount loan + loan_fee loan <= coin_value payment
        /\ pool_next t c p = pool_after_repay payment loan p)
  \/ (c = entry_pool_call call_toggle_pool_status
      /\ pool_next t c p = set_active (negb (active p)) p)
  \/ (exists r,
        c = entry_update_fee_rate r /\ r <= 1000
        /\ pool_next t c p = set_fee_rate r p).
Proof.
  unfold pool_next, commit.
  destruct (run_entry c (mkEnv p t)) as [[] e'|err e'] eqn:Hrun; [|left; reflexivity].
  destruct c as [[amount clock|payment loan clock|]|r]; cbn [run_entry run_call] in Hrun.
  - unfold bind at 1 in Hrun.
    destruct (borrow amount clock (mkEnv p t)) as [[coin loan] e1|] eqn:Hb;
      [|discriminate].
    injection Hrun as <-. apply borrow_inv in Hb. cbn [obj] in Hb.
    destruct Hb as (_ & _ & Hbal & _ & _ & _ & _ & _ & _ & _ & Hobj).
    right; left. eauto 6.
  - apply repay_inv in Hrun. cbn [obj] in Hrun. destruct Hrun as (_ & Hdue & Hobj).
    right; right; left. eauto 6.
  - unfold toggle_pool_status in Hrun. unfold_monad. cbn in Hrun.
    case_tests Hrun. injection Hrun as <-. right; right; right; left. auto.
  - apply update_fee_rate_inv in Hrun. cbn [obj tx] in Hrun.
    destruct Hrun as (_ & Hle & ->). right; right; right; right. eauto.
Qed.

(** X6.  Nothing in the module rewrites a pool's id, its admin or its loan
    cap: they are the same after any history of [borrow], [repay],
    [toggle_pool_status] and [update_fee_rate] calls, made by anyone and
    whether they return or abort. *)
Theorem pool_history_fixed_fields (calls : list (Tx * entry_call)) (p : LiquidityPool) :
  pool_uid (pool_history calls p) = pool_uid p
  /\ admin (pool_history calls p) = admin p
  /\ max_loan_amount (pool_history calls p) = max_loan_amount p.
Proof.
  revert p. induction calls as [|[t c] rest IH]; intros p; cbn [pool_history].
  - repeat split.
  - destruct (IH (pool_next t c p)) as (-> & -> & ->).
    destruct (pool_next_cases t c p)
      as [->|[(a & k & _ & _ & ->)|[(y & l & k & _ & _ & ->)|[[_ ->]|(r & _ & _ & ->)]]]];
      repeat split.
Qed.

Lemma borrow_fee_capped (e e' : Env LiquidityPool) (amount : u64) (clock : Clock)
  (coin : Coin) (loan : FlashLoan) :
  fee_rate (obj e) <= 1000 -> 0 <= amount ->
  borrow amount clock e = Ok (coin, loan) e' ->
  10 * loan_fee loan <= amount.
Proof.
  intros Hcap H0 Hb. apply borrow_inv in Hb.
  destruct Hb as (_ & _ & _ & _ & _ & _ & _ & -> & _).
  pose proof (Z.mul_div_le (amount * fee_rate (obj e)) 10000 ltac:(lia)). nia.
Qed.

(** X7.  A pool whose rate is within the 10% cap stays within it through
    any history of calls, and every obligation then issued on it carries a
    fee of at most a tenth of its amount. *)
Theorem fee_cap_is_kept (calls : list (Tx * entry_call)) (p : LiquidityPool) :
  fee_rate p <= 1000 ->
  fee_rate (pool_history calls p) <= 1000
  /\ forall t amount clock coin loan e',
       0 <= amount ->
       borrow amount clock (mkEnv (pool_history calls p) t) = Ok (coin, loan) e' ->
       10 * loan_fee loan <= amount.
Proof.
  intros Hcap.
  assert (Hkept : fee_rate (pool_history calls p) <= 1000).
  { revert p Hcap. induction calls as [|[t c] rest IH]; intros p Hcap;
      cbn [pool_history]; [exact Hcap|].
    apply IH.
    destruct (pool_next_cases t c p)
      as [->|[(a & k & _ & _ & ->)|[(y & l & k & _ & _ & ->)|[[_ ->]|(r & _ & Hr & ->)]]]];
      cbn; lia. }
  split; [exact Hkept|].
  intros t amount clock coin loan e' H0 Hb.
  eapply borrow_fee_capped; [|exact H0|exact Hb]. exact Hkept.
Qed.

Lemma fee_cap_is_kept_witness :
  fee_rate (pool_history [(admin_tx, entry_update_fee_rate 1000);
                          (user_tx, entry_pool_call (call_borrow 100000000 noon))]
              test_pool) <= 1000
  /\ forall t amount clock coin loan e',
       0 <= amount ->
       borrow amount clock
         (mkEnv (pool_history [(admin_tx, entry_update_fee_rate 1000);
                               (user_tx, entry_pool_call (call_borrow 100000000 noon))]
                   test_pool) t) = Ok (coin, loan) e' ->
       10 * loan_fee loan <= amount.
Proof.
  apply (fee_cap_is_kept _ test_pool). vm_compute. congruence.
Defined.

(** X8.  The two counters only grow: over any history of calls whose
    obligations and payments are u64 values, [total_loans_issued] and
    [total_fees_collected] end no lower than they started. *)
Theorem pool_history_counters_grow (calls : list (Tx * entry_call)) (p : LiquidityPool) :
  Forall (fun tc => entry_call_wf (snd tc)) calls ->
  total_loans_issued p <= total_loans_issued (pool_history calls p)
  /\ total_fees_collected p <= total_fees_collected (pool_history calls p).
Proof.
  intros Hwf. revert p. induction Hwf as [|[t c] rest Hc _ IH]; intros p;
    cbn [pool_history]; [lia|].
  destruct (IH (pool_next t c p)) as [Hl Hf]. cbn [snd] in Hc.
  destruct (pool_next_cases t c p)
    as [E|[(a & k & -> & _ & E)|[(y & l & k & -> & _ & E)|[[-> E]|(r & -> & _ & E)]]]];
    rewrite E in Hl, Hf |- *; cbn in *; lia.
Qed.

Lemma pool_history_counters_grow_witness :
  total_loans_issued test_pool
  <= total_loans_issued
       (pool_history [(user_tx, entry_pool_call (call_borrow 100000000 noon));
                      (user_tx, entry_pool_call
                                  (call_repay (mkCoin 92 (mkBalance 100300000))
                                     test_loan noon))] test_pool)
  /\ total_fees_collected test_pool
     <= total_fees_collected
          (pool_history [(user_tx, entry_pool_call (call_borrow 100000000 noon));
                         (user_tx, entry_pool_call
                                     (call_repay (mkCoin 92 (mkBalance 100300000))
                                        test_loan noon))] test_pool).
Proof.
  apply (pool_history_counters_grow _ test_pool).
  repeat constructor; vm_compute; congruence.
Defined.

(** ** [execute_arbitrage] *)

(** X9.  [execute_arbitrage] returns exactly when a hundredth of [amount],
    rounded down, reaches [min_profit]; it then emits one event with that
    profit and the ids of the two pools.  Otherwise it aborts with code
    100.  On either path the two pools are as they were: no funds move. *)
Theorem execute_arbitrage_spec
  (s : Call (LiquidityPool * LiquidityPool) ArbitrageExecuted)
  (amount min_profit : u64) (clock : Clock) :
  (min_profit <= amount / 100 ->
   execute_arbitrage amount min_profit clock s
   = Ok tt (mkCall (target s) (call_ctx s)
              (emitted s ++
               [mkArbitrageExecuted (sender (call_ctx s))
                  (pool_uid (fst (target s))) (pool_uid (snd (target s)))
                  amount (amount / 100) (timestamp_ms clock)])))
  /\ (amount / 100 < min_profit ->
      execute_arbitrage amount min_profit clock s = Aborted (AbortCode 100) s).
Proof.
  destruct s as [[pa pb] c ev]. unfold execute_arbitrage, call_sender, call_emit.
  unfold_monad. cbn. split; intros H; decide_tests; reflexivity.
Qed.

Lemma execute_arbitrage_spec_witness :
  execute_arbitrage 100000000 1000000 noon
    (mkCall (test_pool, second_pool) (mkTxContext USER 5 0) [])
  = Ok tt (mkCall (test_pool, second_pool) (mkTxContext USER 5 0)
             [mkArbitrageExecuted USER 77 88 100000000 (100000000 / 100)
                (timestamp_ms noon)]).
Proof.
  apply (proj1 (execute_arbitrage_spec
                  (mkCall (test_pool, second_pool) (mkTxContext USER 5 0) [])
                  100000000 1000000 noon)).
  vm_compute. congruence.
Defined.

(** ** Registering pools with the detector *)

Lemma vector_contains_elem_of (v : list address) (x : address) :
  arbitrage_detector.vector_contains v x = true <-> x ∈ v.
Proof.
  induction v as [|y rest IH]; cbn.
  - split; [discriminate|]. intros H. inversion H.
  - destruct (y =? x) eqn:E.
    + apply Z.eqb_eq in E. subst. split; [intros _; left|reflexivity].
    + apply Z.eqb_neq in E. rewrite IH. split.
      * intros H. right. exact H.
      * intros H. inversion H; subst; [congruence|assumption].
Qed.

Lemma register_pool_run (e : Env ArbitrageDetector) (pool_id : address) :
  sender (ctx (tx e)) = detector_admin (obj e) ->
  arbitrage_detector.register_pool pool_id e
  = Ok tt (if arbitrage_detector.vector_contains (registered_pools (obj e)) pool_id
           then e
           else mkEnv (arbitrage_detector.set_registered_pools
                         (registered_pools (obj e) ++ [pool_id]) (obj e)) (tx e)).
Proof.
  destruct e as [d t]. cbn [obj tx]. intros Heq.
  unfold arbitrage_detector.register_pool, arbitrage_detector.vector_push_back.
  unfold_monad. cbn. decide_tests. cbn.
  destruct (arbitrage_detector.vector_contains (registered_pools d) pool_id);
    reflexivity.
Qed.

Lemma register_pool_unauthorized (e : Env ArbitrageDetector) (pool_id : address) :
  sender (ctx (tx e)) <> detector_admin (obj e) ->
  arbitrage_detector.register_pool pool_id e
  = Aborted (AbortCode arbitrage_detector.EUnauthorized) e.
Proof.
  destruct e as [d t]. cbn [obj tx]. intros Hne.
  unfold arbitrage_detector.register_pool. unfold_monad. cbn. decide_tests.
  reflexivity.
Qed.

(** X10.  [register_pool] is for the detector's admin alone (anyone else
    gets [EUnauthorized], nothing written).  For the admin it returns with
    the pool registered: a pool already in the list leaves everything as it
    was, a new one goes to the end of the list; registering again changes
    nothing, and a list without duplicates stays without duplicates. *)
Theorem register_pool_spec (e : Env ArbitrageDetector) (pool_id : address) :
  (sender (ctx (tx e)) <> detector_admin (obj e) ->
   arbitrage_detector.register_pool pool_id e
   = Aborted (AbortCode arbitrage_detector.EUnauthorized) e)
  /\ (sender (ctx (tx e)) = detector_admin (obj e) ->
      exists e',
        arbitrage_detector.register_pool pool_id e = Ok tt e'
        /\ pool_id ∈ arbitrage_detector.get_registered_pools (obj e')
        /\ (pool_id ∈ registered_pools (obj e) -> e' = e)
        /\ (pool_id ∉ registered_pools (obj e) ->
            registered_pools (obj e') = registered_pools (obj e) ++ [pool_id])
        /\ arbitrage_detector.register_pool pool_id e' = Ok tt e'
        /\ (NoDup (registered_pools (obj e)) -> NoDup (registered_pools (obj e')))
        /\ opportunities (obj e') = opportunities (obj e)).
Proof.
  split; [apply register_pool_unauthorized|].
  - intros Heq. rewrite (register_pool_run e pool_id Heq).
    unfold arbitrage_detector.get_registered_pools.
    destruct (arbitrage_detector.vector_contains (registered_pools (obj e)) pool_id)
      eqn:E.
    + pose proof (proj1 (vector_contains_elem_of _ _) E) as Hin.
      exists e. split; [reflexivity|]. split; [exact Hin|]. split; [reflexivity|].
      split; [intros Hn; contradiction|].
      split; [rewrite (register_pool_run e pool_id Heq), E; reflexivity|].
      split; [auto|reflexivity].
    + assert (Hnin : pool_id ∉ registered_pools (obj e)).
      { intros Hin. apply vector_contains_elem_of in Hin. congruence. }
      eexists. split; [reflexivity|]. cbn [obj tx registered_pools
        arbitrage_detector.set_registered_pools opportunities].
      split; [apply elem_of_app; right; left|].
      split; [intros Hin; contradiction|]. split; [reflexivity|].
      split.
      * rewrite register_pool_run by exact Heq.
        cbn [obj tx registered_pools arbitrage_detector.set_registered_pools].
        replace (arbitrage_detector.vector_contains
                   (registered_pools (obj e) ++ [pool_id]) pool_id) with true;
          [reflexivity|].
        symmetry. apply vector_contains_elem_of, elem_of_app. right. left.
      * split; [|reflexivity]. intros Hnd. apply NoDup_app.
        split; [exact Hnd|]. split; [|apply NoDup_singleton].
        intros x Hx Hx'. apply list_elem_of_singleton in Hx'. subst. contradiction.
Qed.

Lemma register_pool_spec_witness :
  exists e',
    arbitrage_detector.register_pool 77 (mkEnv new_detector admin_tx) = Ok tt e'
    /\ 77 ∈ arbitrage_detector.get_registered_pools (obj e')
    /\ arbitrage_detector.register_pool 77 e' = Ok tt e'.
Proof.
  destruct (proj2 (register_pool_spec (mkEnv new_detector admin_tx) 77) eq_refl)
    as (e' & Hrun & Hin & _ & _ & Hagain & _).
  exists e'. auto.
Defined.

Lemma detector_next_cases (t : Tx) (pool_id : address) (d : ArbitrageDetector) :
  arbitrage_detector.detector_next t pool_id d = d
  \/ ((pool_id ∉ registered_pools d)
      /\ arbitrage_detector.detector_next t pool_id d
         = arbitrage_detector.set_registered_pools (registered_pools d ++ [pool_id]) d).
Proof.
  unfold arbitrage_detector.detector_next, commit.
  destruct (Z.eq_dec (sender (ctx t)) (detector_admin d)) as [Heq|Hne].
  - rewrite (register_pool_run (mkEnv d t) pool_id Heq). cbn [obj tx].
    destruct (arbitrage_detector.vector_contains (registered_pools d) pool_id) eqn:E;
      [left; reflexivity|].
    right. split; [|reflexivity].
    intros Hin. apply vector_contains_elem_of in Hin. congruence.
  - rewrite (register_pool_unauthorized (mkEnv d t) pool_id Hne). left. reflexivity.
Qed.

(** X11.  Over any history of [register_pool] calls, by the admin or not,
    the registered pools are never removed or reordered (the old list is a
    prefix of the new one), a list without duplicates never gets one, and
    the opportunities, the threshold and the admin are untouched. *)
Theorem detector_history_registrations (calls : list (Tx * address))
  (d : ArbitrageDetector) :
  registered_pools d `prefix_of` registered_pools (arbitrage_detector.detector_history calls d)
  /\ (NoDup (registered_pools d) ->
      NoDup (registered_pools (arbitrage_detector.detector_history calls d)))
  /\ opportunities (arbitrage_detector.detector_history calls d) = opportunities d
  /\ min_profit_threshold (arbitrage_detector.detector_history calls d)
     = min_profit_threshold d
  /\ detector_admin (arbitrage_detector.detector_history calls d) = detector_admin d.
Proof.
  revert d. induction calls as [|[t pool_id] rest IH]; intros d;
    cbn [arbitrage_detector.detector_history].
  - repeat split; auto.
  - destruct (IH (arbitrage_detector.detector_next t pool_id d))
      as (Hpre & Hnd & -> & -> & ->).
    destruct (detector_next_cases t pool_id d) as [E|[Hnin E]]; rewrite E in *.
    + repeat split; auto.
    + cbn [registered_pools arbitrage_detector.set_registered_pools opportunities
           min_profit_threshold detector_admin] in *.
      split; [|split; [|repeat split]].
      * etransitivity; [|exact Hpre]. apply prefix_app_r. reflexivity.
      * intros Hd. apply Hnd. apply NoDup_app.
        split; [exact Hd|]. split; [|apply NoDup_singleton].
        intros x Hx Hx'. apply list_elem_of_singleton in Hx'. subst. contradiction.
Qed.

Lemma detector_history_registrations_witness :
  NoDup (registered_pools
           (arbitrage_detector.detector_history
              [(admin_tx, 77); (user_tx, 88); (admin_tx, 77); (admin_tx, 99)]
              new_detector)).
Proof.
  apply (detector_history_registrations
           [(admin_tx, 77); (user_tx, 88); (admin_tx, 77); (admin_tx, 99)]
           new_detector).
  apply NoDup_nil_2.
Defined.

(** ** The price oracle *)

Lemma table_contains_lookup {V} (t : gmap string V) (k : string) :
  table.contains t k = match t !! k with Some _ => true | None => false end.
Proof. reflexivity. Qed.

Lemma table_assign_some {V} (t : gmap string V) (k : string) (v x : V) :
  t !! k = Some x -> table.assign k v t = Ok tt (<[k := v]> t).
Proof. intros E. unfold table.assign. rewrite E. reflexivity. Qed.

Lemma table_add_none {V} (t : gmap string V) (k : string) (v : V) :
  t !! k = None -> table.add k v t = Ok tt (<[k := v]> t).
Proof. intros E. unfold table.add. rewrite E. reflexivity. Qed.

Lemma table_borrow_some {V} (t : gmap string V) (k : string) (x : V) :
  t !! k = Some x -> table.borrow k t = Ok x t.
Proof. intros E. unfold table.borrow. rewrite E. reflexivity. Qed.

Lemma table_borrow_none {V} (t : gmap string V) (k : string) :
  t !! k = None ->
  table.borrow k t = Aborted (FrameworkAbort "dynamic_field" table.EFieldDoesNotExist) t.
Proof. intros E. unfold table.borrow. rewrite E. reflexivity. Qed.

(** The oracle after an accepted update of [name]. *)
Lemma update_price_ok (e : Env PriceOracle) (name : string) (price : u64)
  (clock : Clock) :
  sender (ctx (tx e)) = oracle_admin (obj e) ->
  0 < price ->
  arbitrage_detector.oracle_wf (obj e) ->
  arbitrage_detector.update_price name price clock e
  = Ok tt (mkEnv (mkPriceOracle (oracle_uid (obj e))
                    (<[name := price]> (prices (obj e)))
                    (<[name := timestamp_ms clock]> (last_updated (obj e)))
                    (oracle_admin (obj e)))
             (tx e)).
Proof.
  destruct e as [o t]. cbn [obj tx]. intros Heq Hpos [Hdom _].
  specialize (Hdom name).
  unfold arbitrage_detector.update_price.
  unfold in_tx, in_obj, zoom, tx_sender, assert, bind, ret, raise, reads.
  cbn [obj tx ctx sender set_tx]. decide_tests.
  rewrite table_contains_lookup. cbn [obj tx set_tx].
  destruct (prices o !! name) as [p|] eqn:Ep; cbn beta iota; cbn [obj tx set_obj].
  - destruct (proj1 Hdom ltac:(eauto)) as [u Eu].
    rewrite (table_assign_some _ _ _ _ Ep).
    cbn [obj tx set_obj arbitrage_detector.set_prices last_updated].
    rewrite (table_assign_some _ _ _ _ Eu). reflexivity.
  - assert (El : last_updated o !! name = None).
    { destruct (last_updated o !! name) eqn:El; [|reflexivity].
      destruct (proj2 Hdom ltac:(eauto)) as [p Ep']. discriminate. }
    rewrite (table_add_none _ _ _ Ep).
    cbn [obj tx set_obj arbitrage_detector.set_prices last_updated].
    rewrite (table_add_none _ _ _ El). reflexivity.
Qed.

Lemma update_price_rejected (e : Env PriceOracle) (name : string) (price : u64)
  (clock : Clock) :
  (sender (ctx (tx e)) <> oracle_admin (obj e) ->
   arbitrage_detector.update_price name price clock e
   = Aborted (AbortCode arbitrage_detector.EUnauthorized) e)
  /\ (sender (ctx (tx e)) = oracle_admin (obj e) -> price <= 0 ->
      arbitrage_detector.update_price name price clock e
      = Aborted (AbortCode arbitrage_detector.EInvalidPrice) e).
Proof.
  destruct e as [o t]. cbn [obj tx].
  unfold arbitrage_detector.update_price. unfold_monad. cbn.
  split; intros; decide_tests; reflexivity.
Qed.

Lemma get_price_run (o : PriceOracle) (name : string) :
  arbitrage_detector.get_price name o = Ok (default 0 (prices o !! name)) o.
Proof.
  unfold arbitrage_detector.get_price. unfold zoom, bind, get, ret.
  rewrite table_contains_lookup.
  destruct (prices o !! name) as [p|] eqn:Ep; cbn [default].
  - rewrite (table_borrow_some _ _ _ Ep). destruct o. reflexivity.
  - reflexivity.
Qed.

Lemma oracle_wf_insert (o : PriceOracle) (name : string) (price ts : u64) :
  0 < price ->
  arbitrage_detector.oracle_wf o ->
  arbitrage_detector.oracle_wf
    (mkPriceOracle (oracle_uid o) (<[name := price]> (prices o))
       (<[name := ts]> (last_updated o)) (oracle_admin o)).
Proof.
  intros Hpos [Hdom Hprice]. split; cbn [prices last_updated].
  - intros k. destruct (decide (name = k)) as [->|Hne].
    + rewrite !lookup_insert_eq. split; eauto.
    + rewrite !lookup_insert_ne by exact Hne. apply Hdom.
  - intros k p. destruct (decide (name = k)) as [->|Hne].
    + rewrite lookup_insert_eq. intros [= <-]. exact Hpos.
    + rewrite lookup_insert_ne by exact Hne. apply Hprice.
Qed.

(** X12.  On an oracle whose two tables have the same keys, [update_price]
    by the admin with a price above 0 returns, whether the token is new or
    known; [get_price] then gives that price for the token and what it gave
    before for every other token, and the update time is the clock's.  A
    caller other than the admin gets [EUnauthorized] and a price of 0 gets
    [EInvalidPrice], both before anything is written. *)
Theorem update_price_spec (e : Env PriceOracle) (name : string) (price : u64)
  (clock : Clock) :
  (sender (ctx (tx e)) <> oracle_admin (obj e) ->
   arbitrage_detector.update_price name price clock e
   = Aborted (AbortCode arbitrage_detector.EUnauthorized) e)
  /\ (sender (ctx (tx e)) = oracle_admin (obj e) -> price <= 0 ->
      arbitrage_detector.update_price name price clock e
      = Aborted (AbortCode arbitrage_detector.EInvalidPrice) e)
  /\ (sender (ctx (tx e)) = oracle_admin (obj e) -> 0 < price ->
      arbitrage_detector.oracle_wf (obj e) ->
      exists e',
        arbitrage_detector.update_price name price clock e = Ok tt e'
        /\ arbitrage_detector.get_price name (obj e') = Ok price (obj e')
        /\ last_updated (obj e') !! name = Some (timestamp_ms clock)
        /\ (forall other, other <> name ->
            arbitrage_detector.get_price other (obj e')
            = match arbitrage_detector.get_price other (obj e) with
              | Ok v _ => Ok v (obj e')
              | Aborted err _ => Aborted err (obj e')
              end)
        /\ arbitrage_detector.oracle_wf (obj e')
        /\ tx e' = tx e).
Proof.
  split; [apply update_price_rejected|]. split; [apply update_price_rejected|].
  intros Heq Hpos Hwf. rewrite (update_price_ok e name price clock Heq Hpos Hwf).
  eexists. split; [reflexivity|]. cbn [obj tx].
  split; [rewrite get_price_run; cbn [prices]; rewrite lookup_insert_eq; reflexivity|].
  split; [cbn [last_updated]; apply lookup_insert_eq|].
  split; [|split; [apply oracle_wf_insert; assumption|reflexivity]].
  intros other Hne. rewrite !get_price_run. cbn [prices].
  rewrite lookup_insert_ne by congruence. reflexivity.
Qed.

Lemma update_price_spec_witness :
  exists e',
    arbitrage_detector.update_price "SUI" 1250000 noon (mkEnv empty_oracle admin_tx)
    = Ok tt e'
    /\ arbitrage_detector.get_price "SUI" (obj e') = Ok 1250000 (obj e').
Proof.
  destruct (proj2 (proj2 (update_price_spec (mkEnv empty_oracle admin_tx) "SUI"
                            1250000 noon)) eq_refl ltac:(lia))
    as (e' & Hrun & Hget & _).
  - split; cbn; intros k; [|intros p]; rewrite !lookup_empty.
    + split; intros [x Hx]; discriminate.
    + discriminate.
  - exists e'. auto.
Defined.

(** X13.  [get_price] never aborts and never writes.  It answers 0 for a
    token without a price; on an oracle that holds no zero price, as
    [update_price] keeps it, the answer is 0 for such tokens only. *)
Theorem get_price_spec (o : PriceOracle) (name : string) :
  exists v,
    arbitrage_detector.get_price name o = Ok v o
    /\ (prices o !! name = None -> v = 0)
    /\ (forall p, prices o !! name = Some p -> v = p)
    /\ (arbitrage_detector.oracle_wf o -> (v = 0 <-> prices o !! name = None)).
Proof.
  exists (default 0 (prices o !! name)). split; [apply get_price_run|].
  destruct (prices o !! name) as [p|] eqn:Ep; cbn.
  - split; [discriminate|]. split; [intros q [= <-]; reflexivity|].
    intros [_ Hprice]. specialize (Hprice name p Ep).
    split; [lia|discriminate].
  - split; [reflexivity|]. split; [discriminate|]. intros _. split; reflexivity.
Qed.

Lemma get_price_spec_witness :
  exists v,
    arbitrage_detector.get_price "USDC" empty_oracle = Ok v empty_oracle
    /\ v = 0.
Proof.
  destruct (get_price_spec empty_oracle "USDC") as (v & Hrun & Hnone & _).
  exists v. split; [exact Hrun|]. apply Hnone. reflexivity.
Defined.

Lemma oracle_next_run (t : Tx) (name : string) (price : u64) (clock : Clock)
  (o : PriceOracle) :
  arbitrage_detector.oracle_wf o ->
  arbitrage_detector.oracle_next t name price clock o
  = if (sender (ctx t) =? oracle_admin o) && (0 <? price)
    then mkPriceOracle (oracle_uid o) (<[name := price]> (prices o))
           (<[name := timestamp_ms clock]> (last_updated o)) (oracle_admin o)
    else o.
Proof.
  intros Hwf. unfold arbitrage_detector.oracle_next, commit.
  destruct (sender (ctx t) =? oracle_admin o) eqn:Ea; to_lia.
  - destruct (0 <? price) eqn:Ep; to_lia; cbn [andb].
    + rewrite (update_price_ok (mkEnv o t) name price clock Ea Ep Hwf). reflexivity.
    + rewrite (proj2 (update_price_rejected (mkEnv o t) name price clock) Ea Ep).
      reflexivity.
  - cbn [andb].
    rewrite (proj1 (update_price_rejected (mkEnv o t) name price clock) Ea).
    reflexivity.
Qed.

(** X14.  The oracle that [init] shares is empty, with the publisher as its
    admin.  From any oracle whose tables have the same keys and hold no zero
    price, every history of [update_price] calls, accepted or not, leads to
    such an oracle again, with the same admin, and the price it holds for a
    token is the one of the last call made by the admin with a price above
    0 for that token, or the one held before when there was no such call. *)
Theorem oracle_history_spec (calls : list (Tx * string * u64 * Clock))
  (o : PriceOracle) (name : string) :
  (forall s, exists s' oracle,
      arbitrage_detector.init s = Ok tt s'
      /\ arbitrage_detector.pub_oracles s'
         = arbitrage_detector.pub_oracles s ++ [oracle]
      /\ prices oracle = ∅ /\ last_updated oracle = ∅
      /\ oracle_admin oracle = sender (ctx (arbitrage_detector.pub_tx s))
      /\ arbitrage_detector.oracle_wf oracle)
  /\ (arbitrage_detector.oracle_wf o ->
      arbitrage_detector.oracle_wf (arbitrage_detector.oracle_history calls o)
      /\ oracle_admin (arbitrage_detector.oracle_history calls o) = oracle_admin o
      /\ prices (arbitrage_detector.oracle_history calls o) !! name
         = arbitrage_detector.accepted_price (oracle_admin o) name calls
             (prices o !! name)).
Proof.
  split.
  - intros s. unfold arbitrage_detector.init, arbitrage_detector.new_object.
    unfold_monad. cbn.
    eexists _, _. split; [reflexivity|]. cbn.
    split; [reflexivity|]. split; [reflexivity|]. split; [reflexivity|].
    split; [reflexivity|].
    split; cbn; intros k; [|intros p]; rewrite !lookup_empty.
    + split; intros [x Hx]; discriminate.
    + discriminate.
  - revert o. induction calls as [|[[[t n] price] clock] rest IH]; intros o Hwf;
      cbn [arbitrage_detector.oracle_history arbitrage_detector.accepted_price].
    + auto.
    + rewrite (oracle_next_run t n price clock o Hwf).
      destruct ((sender (ctx t) =? oracle_admin o) && (0 <? price)) eqn:Eacc;
        cbn [andb].
      * apply andb_prop in Eacc. destruct Eacc as [Ea Ep]. to_lia.
        destruct (IH _ (oracle_wf_insert o n price (timestamp_ms clock) Ep Hwf))
          as (Hwf' & Hadm & Hprice).
        split; [exact Hwf'|]. split; [exact Hadm|].
        rewrite Hprice. cbn [oracle_admin prices]. f_equal.
        destruct (String.eqb n name) eqn:En.
        -- apply String.eqb_eq in En. subst. apply lookup_insert_eq.
        -- apply String.eqb_neq in En. apply lookup_insert_ne. exact En.
      * destruct (IH o Hwf) as (Hwf' & Hadm & Hprice). auto.
Qed.

Lemma oracle_history_spec_witness :
  prices (arbitrage_detector.oracle_history
            [(admin_tx, "SUI", 1250000, noon); (user_tx, "SUI", 7, noon);
             (admin_tx, "SUI", 0, noon); (admin_tx, "USDC", 1000000, noon)]
            empty_oracle) !! "SUI"
  = arbitrage_detector.accepted_price (oracle_admin empty_oracle) "SUI"
      [(admin_tx, "SUI", 1250000, noon); (user_tx, "SUI", 7, noon);
       (admin_tx, "SUI", 0, noon); (admin_tx, "USDC", 1000000, noon)]
      (prices empty_oracle !! "SUI").
Proof.
  apply (proj2 (oracle_history_spec
                  [(admin_tx, "SUI", 1250000, noon); (user_tx, "SUI", 7, noon);
                   (admin_tx, "SUI", 0, noon); (admin_tx, "USDC", 1000000, noon)]
                  empty_oracle "SUI")).
  split; cbn; intros k; [|intros p]; rewrite !lookup_empty.
  - split; intros [x Hx]; discriminate.
  - discriminate.
Defined.

(** ** More on the detectors *)

Lemma ratio_below_par (collateral debt threshold : Z) :
  0 < debt -> threshold <= 10000 ->
  collateral * 10000 / debt < threshold ->
  collateral < debt.
Proof.
  intros Hd Ht Hr.
  destruct (Z_lt_le_dec collateral debt) as [Hlt|Hge]; [exact Hlt|].
  assert (10000 <= collateral * 10000 / debt).
  { apply Z.div_le_lower_bound; lia. }
  lia.
Qed.

(** X15.  For a positive debt, a threshold of at most 100% and products
    that fit in a u64, [detect_liquidation_opportunity] always returns: it
    answers [true] exactly when [collateral_value * 10000 / debt_value] is
    below the threshold, and then emits one event with the shortfall, a
    reward of [debt_value * 500 / 10000] and the debt as recommended amount;
    it answers [false] without emitting.  The detector itself is never
    written: nothing is added to the opportunity table. *)
Theorem detect_liquidation_opportunity_spec (e : Env ArbitrageDetector)
  (collateral_value debt_value liquidation_threshold : u64) (clock : Clock) :
  0 < debt_value ->
  liquidation_threshold <= 10000 ->
  collateral_value * 10000 <= MAX_U64 ->
  debt_value * 500 <= MAX_U64 ->
  detect_liquidation_opportunity collateral_value debt_value liquidation_threshold
    clock e
  = if collateral_value * 10000 / debt_value <? liquidation_threshold
    then Ok true
           (mkEnv (obj e)
              (mkTx (ctx (tx e))
                 (events (tx e) ++
                  [OpportunityDetected (sender (ctx (tx e))) 0 0 "COLLATERAL/DEBT"
                     (debt_value - collateral_value) (debt_value * 500 / 10000)
                     debt_value "liquidation" (timestamp_ms clock)])
                 (shared_pools (tx e))))
    else Ok false e.
Proof.
  destruct e as [d t]. cbn [obj tx]. intros Hd Ht Hc Hr.
  unfold detect_liquidation_opportunity. unfold_monad. decide_tests.
  destruct (collateral_value * 10000 / debt_value <? liquidation_threshold) eqn:E;
    [|reflexivity].
  to_lia. pose proof (ratio_below_par _ _ _ Hd Ht E). cbn. decide_tests.
  reflexivity.
Qed.

Lemma detect_liquidation_opportunity_spec_witness :
  detect_liquidation_opportunity 8000 10000 8500 noon detector_env
  = if 8000 * 10000 / 10000 <? 8500
    then Ok true
           (mkEnv (obj detector_env)
              (mkTx (ctx (tx detector_env))
                 (events (tx detector_env) ++
                  [OpportunityDetected (sender (ctx (tx detector_env))) 0 0
                     "COLLATERAL/DEBT" (10000 - 8000) (10000 * 500 / 10000)
                     10000 "liquidation" (timestamp_ms noon)])
                 (shared_pools (tx detector_env))))
    else Ok false detector_env.
Proof.
  apply (detect_liquidation_opportunity_spec detector_env 8000 10000 8500 noon);
    vm_compute; congruence.
Defined.

Lemma abs_diff_sym {S} (a b : u64) (s : S) : abs_diff a b s = abs_diff b a s.
Proof. rewrite !abs_diff_ok. f_equal. lia. Qed.

Lemma relative_diff_sym {S} (d a b : u64) (s : S) :
  relative_diff d a b s = relative_diff d b a s.
Proof. unfold relative_diff, u64_add. rewrite (Z.add_comm a b). reflexivity. Qed.

(** X16.  [detect_cross_chain_arbitrage] does not tell its two prices
    apart, and never looks at the oracle it is handed: with the prices
    swapped and any other oracle it gives the same answer, the same event
    and the same abort. *)
Theorem detect_cross_chain_arbitrage_symmetric (e : Env ArbitrageDetector)
  (oracle oracle' : PriceOracle) (sui_price external_price : u64) (clock : Clock) :
  detect_cross_chain_arbitrage oracle sui_price external_price clock e
  = detect_cross_chain_arbitrage oracle' external_price sui_price clock e.
Proof.
  unfold detect_cross_chain_arbitrage, bind.
  rewrite !abs_diff_ok.
  replace (Z.abs (external_price - sui_price)) with (Z.abs (sui_price - external_price))
    by lia.
  rewrite (relative_diff_sym _ sui_price external_price).
  reflexivity.
Qed.

Lemma relative_diff_of_zero {S} (a b : u64) (s : S) :
  relative_diff 0 a b s = Ok 0 s \/ relative_diff 0 a b s = Aborted ArithmeticError s.
Proof.
  unfold relative_diff. unfold_monad. cbn.
  destruct (a + b <=? MAX_U64); [|right; reflexivity].
  destruct ((a + b) / 2 =? 0); [right; reflexivity|left; reflexivity].
Qed.

(** X17.  Two snapshots with the same spot price never make
    [detect_dex_arbitrage] fire, whatever the non-negative threshold: a
    call that returns answers [false] and has written nothing. *)
Theorem detect_dex_arbitrage_equal_prices (e e' : Env ArbitrageDetector)
  (a b : PoolInfo) (clock : Clock) (r : bool) :
  price_fits a -> price_fits b ->
  spot_price a = spot_price b ->
  0 <= min_profit_threshold (obj e) ->
  detect_dex_arbitrage a b clock e = Ok r e' ->
  r = false /\ e' = e.
Proof.
  intros Ha Hb Heq Hth Hrun. unfold detect_dex_arbitrage, bind in Hrun.
  rewrite (calculate_amm_price_ok a) in Hrun by assumption. cbv beta iota in Hrun.
  rewrite (calculate_amm_price_ok b) in Hrun by assumption. cbv beta iota in Hrun.
  rewrite abs_diff_ok in Hrun. cbv beta iota in Hrun.
  rewrite Heq, Z.sub_diag in Hrun. change (Z.abs 0) with 0 in Hrun.
  destruct (relative_diff_of_zero (spot_price b) (spot_price b) e) as [E|E];
    rewrite E in Hrun; [|discriminate].
  unfold reads in Hrun. cbv beta iota in Hrun. rewrite ltb_false in Hrun by lia.
  injection Hrun as <- <-. auto.
Qed.

Lemma detect_dex_arbitrage_equal_prices_witness :
  false = false /\ detector_env = detector_env.
Proof.
  apply (detect_dex_arbitrage_equal_prices detector_env detector_env
           (snapshot 1 1000000 1000000) (snapshot 2 2000000 2000000) noon false).
  - right. vm_compute. congruence.
  - right. vm_compute. congruence.
  - reflexivity.
  - vm_compute. congruence.
  - vm_compute. reflexivity.
Defined.

(** X18.  [max_opportunities] is never consulted: under the conditions of a
    firing detection the table grows by one entry whatever its size, also
    when it already holds [max_opportunities] entries or more; the entries
    it held are all kept, and the registered pools, the threshold, the cap
    and the admin are as before. *)
Theorem detect_dex_arbitrage_ignores_cap (e : Env ArbitrageDetector) (a b : PoolInfo)
  (clock : Clock) :
  price_fits a -> price_fits b ->
  Z.abs (spot_price a - spot_price b) * 10000 <= MAX_U64 ->
  spot_price a + spot_price b <= MAX_U64 ->
  (spot_price a + spot_price b) / 2 <> 0 ->
  timestamp_ms clock + 300000 <= MAX_U64 ->
  opportunities (obj e) !! next_id (tx e) = None ->
  min_profit_threshold (obj e) < relative_diff_bps (spot_price a) (spot_price b) ->
  exists e',
    detect_dex_arbitrage a b clock e = Ok true e'
    /\ opportunity_count (obj e') = opportunity_count (obj e) + 1
    /\ (max_opportunities (obj e) <= opportunity_count (obj e) ->
        max_opportunities (obj e') < opportunity_count (obj e'))
    /\ (forall k opp,
        opportunities (obj e) !! k = Some opp -> opportunities (obj e') !! k = Some opp)
    /\ registered_pools (obj e') = registered_pools (obj e)
    /\ min_profit_threshold (obj e') = min_profit_threshold (obj e)
    /\ max_opportunities (obj e') = max_opportunities (obj e)
    /\ detector_admin (obj e') = detector_admin (obj e).
Proof.
  intros Ha Hb Hd Hsum Havg Hclk Hfresh Hhigh.
  destruct (detect_dex_arbitrage_above e a b clock Ha Hb Hd Hsum Havg Hclk Hfresh Hhigh)
    as (e' & Hrun & Hobj).
  exists e'. split; [exact Hrun|]. rewrite Hobj.
  assert (Hcount : opportunity_count
                     (set_opportunities
                        (<[next_id (tx e) := dex_opportunity a b clock (next_id (tx e))]>
                           (opportunities (obj e))) (obj e))
                   = opportunity_count (obj e) + 1).
  { unfold opportunity_count, table_length. cbn [opportunities set_opportunities].
    rewrite map_size_insert_None by exact Hfresh. lia. }
  split; [exact Hcount|]. split.
  - intros Hfull. rewrite Hcount. cbn [max_opportunities set_opportunities]. lia.
  - split; [|repeat split].
    intros k opp Hk. cbn [opportunities set_opportunities].
    rewrite lookup_insert_ne; [exact Hk|]. intros Hsame.
    rewrite <- Hsame in Hk. discriminate (eq_trans (eq_sym Hk) Hfresh).
Qed.

Lemma detect_dex_arbitrage_ignores_cap_witness :
  exists e',
    detect_dex_arbitrage (snapshot 1 1000000 1000000) (snapshot 2 1000000 1002000)
      noon (mkEnv (mkArbitrageDetector 50 ∅ [] 10 0 ADMIN) user_tx) = Ok true e'
    /\ max_opportunities (obj e') < opportunity_count (obj e').
Proof.
  destruct (detect_dex_arbitrage_ignores_cap
              (mkEnv (mkArbitrageDetector 50 ∅ [] 10 0 ADMIN) user_tx)
              (snapshot 1 1000000 1000000) (snapshot 2 1000000 1002000) noon)
    as (e' & Hrun & _ & Hcap & _).
  - right. vm_compute. congruence.
  - right. vm_compute. congruence.
  - vm_compute. congruence.
  - vm_compute. congruence.
  - vm_compute. congruence.
  - vm_compute. congruence.
  - reflexivity.
  - vm_compute. reflexivity.
  - exists e'. split; [exact Hrun|]. apply Hcap. vm_compute. congruence.
Defined.

(** ** The DeepBook manager *)

Ltac unfold_call :=
  unfold deepbook_integration.on_pools, call_sender, call_emit, on_target, zoom,
    assert, bind, ret, raise, reads, get, modify, u64_div, u64_mul in *.

Lemma deepbook_register_pool_run (s : deepbook_integration.State) (network : string)
  (pool_id : address) (base_asset quote_asset : string) :
  sender (call_ctx s) = deepbook_integration.admin (target s) ->
  deepbook_integration.register_pool network pool_id base_asset quote_asset s
  = Ok tt (mkCall (deepbook_integration.manager_with (target s) network
                     (deepbook_integration.mkPoolConfig pool_id base_asset
                        quote_asset network true))
             (call_ctx s) (emitted s)).
Proof.
  destruct s as [m c ev]. cbn [target call_ctx emitted]. intros Heq.
  unfold deepbook_integration.register_pool. unfold_call.
  cbn [target call_ctx emitted]. decide_tests.
  rewrite table_contains_lookup.
  destruct (deepbook_integration.registered_pools m !! network) as [old|] eqn:E;
    cbv beta iota; cbn [target call_ctx emitted].
  - rewrite (table_assign_some _ _ _ _ E). reflexivity.
  - rewrite (table_add_none _ _ _ E). reflexivity.
Qed.

Lemma deepbook_register_pool_unauthorized (s : deepbook_integration.State)
  (network : string) (pool_id : address) (base_asset quote_asset : string) :
  sender (call_ctx s) <> deepbook_integration.admin (target s) ->
  deepbook_integration.register_pool network pool_id base_asset quote_asset s
  = Aborted (AbortCode deepbook_integration.EUnauthorized) s.
Proof.
  destruct s as [m c ev]. cbn [target call_ctx emitted]. intros Hne.
  unfold deepbook_integration.register_pool. unfold_call.
  cbn [target call_ctx emitted]. decide_tests. reflexivity.
Qed.

Lemma get_pool_config_run (m : deepbook_integration.DeepBookManager) (network : string) :
  deepbook_integration.get_pool_config network m
  = match deepbook_integration.registered_pools m !! network with
    | Some c => Ok c m
    | None => Aborted (FrameworkAbort "dynamic_field" table.EFieldDoesNotExist) m
    end.
Proof.
  unfold deepbook_integration.get_pool_config, zoom.
  destruct (deepbook_integration.registered_pools m !! network) as [c|] eqn:E.
  - rewrite (table_borrow_some _ _ _ E). destruct m. reflexivity.
  - rewrite (table_borrow_none _ _ E). destruct m. reflexivity.
Qed.

Lemma is_pool_active_run (m : deepbook_integration.DeepBookManager) (network : string) :
  deepbook_integration.is_pool_active network m
  = Ok match deepbook_integration.registered_pools m !! network with
       | Some c => deepbook_integration.active c
       | None => false
       end m.
Proof.
  unfold deepbook_integration.is_pool_active. unfold zoom, bind, get, ret.
  rewrite table_contains_lookup.
  destruct (deepbook_integration.registered_pools m !! network) as [c|] eqn:E.
  - rewrite (table_borrow_some _ _ _ E). destruct m. reflexivity.
  - reflexivity.
Qed.

Lemma execute_deepbook_flash_loan_run (s : deepbook_integration.State)
  (network : string) (amount : u64) :
  deepbook_integration.execute_deepbook_flash_loan network amount s
  = match deepbook_integration.registered_pools (target s) !! network with
    | Some c =>
        if deepbook_integration.active c
        then Ok tt (mkCall (target s) (call_ctx s)
                      (emitted s ++
                       [deepbook_integration.mkFlashLoanExecution (sender (call_ctx s))
                          (deepbook_integration.pool_id c) amount (amount / 200)
                          network 0]))
        else Aborted (AbortCode deepbook_integration.EPoolNotFound) s
    | None => Aborted (AbortCode deepbook_integration.EPoolNotFound) s
    end.
Proof.
  destruct s as [[i pools bm adm] c ev]. cbn [target call_ctx emitted].
  unfold deepbook_integration.execute_deepbook_flash_loan. unfold_call.
  cbn [target call_ctx emitted deepbook_integration.registered_pools].
  rewrite table_contains_lookup.
  destruct (pools !! network) as [cfg|] eqn:E; cbv beta iota; [|reflexivity].
  cbn [target call_ctx emitted deepbook_integration.registered_pools].
  rewrite (table_borrow_some _ _ _ E). cbv beta iota.
  destruct (deepbook_integration.active cfg); reflexivity.
Qed.

Lemma execute_cross_network_arbitrage_run (s : deepbook_integration.State)
  (testnet_pool mainnet_pool : string) (amount : u64) :
  deepbook_integration.execute_cross_network_arbitrage testnet_pool mainnet_pool
    amount s
  = match deepbook_integration.registered_pools (target s) !! testnet_pool,
          deepbook_integration.registered_pools (target s) !! mainnet_pool with
    | Some c, Some _ =>
        Ok tt (mkCall (target s) (call_ctx s)
                 (emitted s ++
                  [deepbook_integration.mkFlashLoanExecution (sender (call_ctx s))
                     (deepbook_integration.pool_id c) amount (amount / 50)
                     "cross_network" 0]))
    | _, _ => Aborted (AbortCode deepbook_integration.EPoolNotFound) s
    end.
Proof.
  destruct s as [[i pools bm adm] c ev]. cbn [target call_ctx emitted].
  unfold deepbook_integration.execute_cross_network_arbitrage. unfold_call.
  cbn [target call_ctx emitted deepbook_integration.registered_pools].
  rewrite !table_contains_lookup.
  destruct (pools !! testnet_pool) as [ct|] eqn:Et; cbv beta iota; [|reflexivity].
  destruct (pools !! mainnet_pool) as [cm|] eqn:Em; cbv beta iota; [|reflexivity].
  cbn [target call_ctx emitted deepbook_integration.registered_pools].
  rewrite (table_borrow_some _ _ _ Et). cbv beta iota.
  cbn [target call_ctx emitted deepbook_integration.registered_pools
       deepbook_integration.set_registered_pools set_target].
  rewrite (table_borrow_some _ _ _ Em). reflexivity.
Qed.

Lemma execute_liquidation_arbitrage_run (s : deepbook_integration.State)
  (network : string) (collateral_amount debt_amount : u64) :
  deepbook_integration.execute_liquidation_arbitrage network collateral_amount
    debt_amount s
  = match deepbook_integration.registered_pools (target s) !! network with
    | Some c =>
        if debt_amount * 500 <=? MAX_U64
        then Ok tt (mkCall (target s) (call_ctx s)
                      (emitted s ++
                       [deepbook_integration.mkFlashLoanExecution (sender (call_ctx s))
                          (deepbook_integration.pool_id c) debt_amount
                          (debt_amount * 500 / 10000) network 0]))
        else Aborted ArithmeticError s
    | None => Aborted (AbortCode deepbook_integration.EPoolNotFound) s
    end.
Proof.
  destruct s as [[i pools bm adm] c ev]. cbn [target call_ctx emitted].
  unfold deepbook_integration.execute_liquidation_arbitrage. unfold_call.
  cbn [target call_ctx emitted deepbook_integration.registered_pools].
  rewrite table_contains_lookup.
  destruct (pools !! network) as [cfg|] eqn:E; cbv beta iota; [|reflexivity].
  cbn [target call_ctx emitted deepbook_integration.registered_pools].
  rewrite (table_borrow_some _ _ _ E). cbv beta iota.
  destruct (debt_amount * 500 <=? MAX_U64); reflexivity.
Qed.

(** X19.  [register_pool] of the manager is for its admin alone.  For the
    admin it returns whether the key is new or taken: the configuration
    read back under the key is the one given, marked active; every other
    key reads as before; the number of networks grows by one for a new key
    and not at all for a taken one; a second identical call changes
    nothing; no event is emitted. *)
Theorem deepbook_register_pool_spec (s : deepbook_integration.State) (network : string)
  (pool_id : address) (base_asset quote_asset : string) :
  (sender (call_ctx s) <> deepbook_integration.admin (target s) ->
   deepbook_integration.register_pool network pool_id base_asset quote_asset s
   = Aborted (AbortCode deepbook_integration.EUnauthorized) s)
  /\ (sender (call_ctx s) = deepbook_integration.admin (target s) ->
      exists s',
        deepbook_integration.register_pool network pool_id base_asset quote_asset s
        = Ok tt s'
        /\ deepbook_integration.get_pool_config network (target s')
           = Ok (deepbook_integration.mkPoolConfig pool_id base_asset quote_asset
                   network true) (target s')
        /\ deepbook_integration.is_pool_active network (target s') = Ok true (target s')
        /\ (forall other, other <> network ->
            deepbook_integration.registered_pools (target s') !! other
            = deepbook_integration.registered_pools (target s) !! other)
        /\ deepbook_integration.get_registered_networks (target s')
           = deepbook_integration.get_registered_networks (target s)
             + (if table.contains (deepbook_integration.registered_pools (target s))
                     network then 0 else 1)
        /\ deepbook_integration.register_pool network pool_id base_asset quote_asset s'
           = Ok tt s'
        /\ emitted s' = emitted s).
Proof.
  split; [apply deepbook_register_pool_unauthorized|].
  intros Heq. rewrite (deepbook_register_pool_run s _ _ _ _ Heq).
  eexists. split; [reflexivity|]. cbn [target call_ctx emitted].
  split; [|split; [|split; [|split; [|split]]]].
  - rewrite get_pool_config_run.
    unfold deepbook_integration.manager_with.
    cbn [deepbook_integration.registered_pools deepbook_integration.set_registered_pools].
    rewrite lookup_insert_eq. reflexivity.
  - rewrite is_pool_active_run.
    unfold deepbook_integration.manager_with.
    cbn [deepbook_integration.registered_pools deepbook_integration.set_registered_pools].
    rewrite lookup_insert_eq. reflexivity.
  - intros other Hne. unfold deepbook_integration.manager_with.
    cbn [deepbook_integration.registered_pools deepbook_integration.set_registered_pools].
    apply lookup_insert_ne. congruence.
  - unfold deepbook_integration.get_registered_networks, table.length,
      deepbook_integration.manager_with.
    cbn [deepbook_integration.registered_pools deepbook_integration.set_registered_pools].
    rewrite table_contains_lookup.
    destruct (deepbook_integration.registered_pools (target s) !! network) as [old|]
      eqn:E.
    + rewrite map_size_insert_Some by eauto. lia.
    + rewrite map_size_insert_None by exact E. lia.
  - rewrite deepbook_register_pool_run by exact Heq.
    cbn [target call_ctx emitted]. unfold deepbook_integration.manager_with.
    cbn [deepbook_integration.registered_pools deepbook_integration.set_registered_pools
         deepbook_integration.id deepbook_integration.balance_managers
         deepbook_integration.admin].
    rewrite insert_insert_eq. reflexivity.
  - reflexivity.
Qed.

Lemma deepbook_register_pool_spec_witness :
  exists s',
    deepbook_integration.register_pool "testnet" 291 "SUI" "USDC"
      (called_by ADMIN fresh_manager)
    = Ok tt s'
    /\ deepbook_integration.is_pool_active "testnet" (target s') = Ok true (target s')
    /\ deepbook_integration.get_registered_networks (target s') = 1.
Proof.
  destruct (proj2 (deepbook_register_pool_spec (called_by ADMIN fresh_manager)
                     "testnet" 291 "SUI" "USDC") eq_refl)
    as (s' & Hrun & _ & Hact & _ & Hcount & _).
  exists s'. split; [exact Hrun|]. split; [exact Hact|]. rewrite Hcount. reflexivity.
Defined.

(** X20.  A network that was never registered: [get_pool_config] aborts in
    the framework (the key is missing from the table), [is_pool_active]
    answers [false], and each of the three execute calls aborts with
    [EPoolNotFound] without emitting anything; the cross-network call does
    so when either of its two keys is missing. *)
Theorem deepbook_unknown_network (s : deepbook_integration.State) (network : string) :
  deepbook_integration.registered_pools (target s) !! network = None ->
  deepbook_integration.get_pool_config network (target s)
  = Aborted (FrameworkAbort "dynamic_field" table.EFieldDoesNotExist) (target s)
  /\ deepbook_integration.is_pool_active network (target s) = Ok false (target s)
  /\ (forall amount,
      deepbook_integration.execute_deepbook_flash_loan network amount s
      = Aborted (AbortCode deepbook_integration.EPoolNotFound) s)
  /\ (forall other amount,
      deepbook_integration.execute_cross_network_arbitrage network other amount s
      = Aborted (AbortCode deepbook_integration.EPoolNotFound) s
      /\ deepbook_integration.execute_cross_network_arbitrage other network amount s
         = Aborted (AbortCode deepbook_integration.EPoolNotFound) s)
  /\ (forall collateral_amount debt_amount,
      deepbook_integration.execute_liquidation_arbitrage network collateral_amount
        debt_amount s
      = Aborted (AbortCode deepbook_integration.EPoolNotFound) s).
Proof.
  intros E. split; [rewrite get_pool_config_run, E; reflexivity|].
  split; [rewrite is_pool_active_run, E; reflexivity|].
  split; [intros; rewrite execute_deepbook_flash_loan_run, E; reflexivity|].
  split.
  - intros other amount. rewrite !execute_cross_network_arbitrage_run, E.
    split; [reflexivity|].
    destruct (deepbook_integration.registered_pools (target s) !! other); reflexivity.
  - intros. rewrite execute_liquidation_arbitrage_run, E. reflexivity.
Qed.

Lemma deepbook_unknown_network_witness :
  deepbook_integration.is_pool_active "mainnet" testnet_manager
  = Ok false testnet_manager.
Proof.
  apply (deepbook_unknown_network (called_by USER testnet_manager) "mainnet").
  reflexivity.
Defined.

Lemma insert_pair_again {V} (t : gmap string V) (k1 k2 : string) (c1 c2 : V) :
  k1 <> k2 ->
  <[k2 := c2]> (<[k1 := c1]> (<[k2 := c2]> (<[k1 := c1]> t)))
  = <[k2 := c2]> (<[k1 := c1]> t).
Proof.
  intros Hne. apply map_eq. intros k.
  destruct (decide (k = k2)) as [->|H2].
  - rewrite !lookup_insert_eq. reflexivity.
  - rewrite !(lookup_insert_ne _ k2 k) by congruence.
    destruct (decide (k = k1)) as [->|H1].
    + rewrite !lookup_insert_eq. reflexivity.
    + rewrite !(lookup_insert_ne _ k1 k) by congruence.
      rewrite (lookup_insert_ne _ k2 k) by congruence.
      rewrite (lookup_insert_ne _ k1 k) by congruence. reflexivity.
Qed.

Lemma setup_testnet_pools_run (s : deepbook_integration.State) :
  sender (call_ctx s) = deepbook_integration.admin (target s) ->
  deepbook_integration.setup_testnet_pools s
  = Ok tt (mkCall
             (deepbook_integration.manager_with
                (deepbook_integration.manager_with (target s) "testnet_sui_usdc"
                   (deepbook_integration.mkPoolConfig 0x123456789abcdef "SUI" "USDC"
                      "testnet_sui_usdc" true))
                "testnet_sui_usdt"
                (deepbook_integration.mkPoolConfig 0x987654321fedcba "SUI" "USDT"
                   "testnet_sui_usdt" true))
             (call_ctx s) (emitted s)).
Proof.
  intros Heq. unfold deepbook_integration.setup_testnet_pools.
  unfold bind at 1, call_sender, reads. unfold bind at 1.
  unfold bind at 1, assert. rewrite eqb_true by exact Heq. unfold ret at 1.
  unfold bind at 1. rewrite deepbook_register_pool_run by exact Heq.
  rewrite deepbook_register_pool_run by exact Heq. reflexivity.
Qed.

(** X21.  [setup_testnet_pools] is for the admin alone.  For the admin it
    returns on any manager, leaves "testnet_sui_usdc" and "testnet_sui_usdt"
    registered and active with their fixed pool ids, leaves every other
    key as it was, and run a second time changes nothing. *)
Theorem setup_testnet_pools_spec (s : deepbook_integration.State) :
  (sender (call_ctx s) <> deepbook_integration.admin (target s) ->
   deepbook_integration.setup_testnet_pools s
   = Aborted (AbortCode deepbook_integration.EUnauthorized) s)
  /\ (sender (call_ctx s) = deepbook_integration.admin (target s) ->
      exists s',
        deepbook_integration.setup_testnet_pools s = Ok tt s'
        /\ deepbook_integration.get_pool_config "testnet_sui_usdc" (target s')
           = Ok (deepbook_integration.mkPoolConfig 0x123456789abcdef "SUI" "USDC"
                   "testnet_sui_usdc" true) (target s')
        /\ deepbook_integration.get_pool_config "testnet_sui_usdt" (target s')
           = Ok (deepbook_integration.mkPoolConfig 0x987654321fedcba "SUI" "USDT"
                   "testnet_sui_usdt" true) (target s')
        /\ (forall other, other <> "testnet_sui_usdc" -> other <> "testnet_sui_usdt" ->
            deepbook_integration.registered_pools (target s') !! other
            = deepbook_integration.registered_pools (target s) !! other)
        /\ deepbook_integration.setup_testnet_pools s' = Ok tt s').
Proof.
  split.
  - destruct s as [m c ev]. cbn [target call_ctx]. intros Hne.
    unfold deepbook_integration.setup_testnet_pools. unfold_call.
    cbn [target call_ctx]. decide_tests. reflexivity.
  - intros Heq. rewrite (setup_testnet_pools_run s Heq).
    eexists. split; [reflexivity|]. cbn [target call_ctx emitted].
    unfold deepbook_integration.manager_with.
    cbn [deepbook_integration.registered_pools deepbook_integration.set_registered_pools].
    split; [|split; [|split]].
    + rewrite get_pool_config_run.
      cbn [deepbook_integration.registered_pools
           deepbook_integration.set_registered_pools].
      rewrite lookup_insert_ne by discriminate. rewrite lookup_insert_eq. reflexivity.
    + rewrite get_pool_config_run.
      cbn [deepbook_integration.registered_pools
           deepbook_integration.set_registered_pools].
      rewrite lookup_insert_eq. reflexivity.
    + intros other H1 H2. rewrite !lookup_insert_ne by congruence. reflexivity.
    + rewrite setup_testnet_pools_run by exact Heq.
      cbn [target call_ctx emitted]. unfold deepbook_integration.manager_with.
      cbn [deepbook_integration.registered_pools
           deepbook_integration.set_registered_pools deepbook_integration.id
           deepbook_integration.balance_managers deepbook_integration.admin].
      rewrite insert_pair_again by discriminate. reflexivity.
Qed.

Lemma setup_testnet_pools_spec_witness :
  exists s',
    deepbook_integration.setup_testnet_pools (called_by ADMIN fresh_manager)
    = Ok tt s'
    /\ deepbook_integration.setup_testnet_pools s' = Ok tt s'.
Proof.
  destruct (proj2 (setup_testnet_pools_spec (called_by ADMIN fresh_manager)) eq_refl)
    as (s' & Hrun & _ & _ & _ & Hagain).
  exists s'. auto.
Defined.

Lemma manager_with_keeps (m : deepbook_integration.DeepBookManager) (k : string)
  (cfg : deepbook_integration.PoolConfig) :
  deepbook_integration.active cfg = true ->
  deepbook_integration.admin (deepbook_integration.manager_with m k cfg)
  = deepbook_integration.admin m
  /\ (forall x, is_Some (deepbook_integration.registered_pools m !! x) ->
      is_Some (deepbook_integration.registered_pools
                 (deepbook_integration.manager_with m k cfg) !! x))
  /\ (deepbook_integration.all_active m ->
      deepbook_integration.all_active (deepbook_integration.manager_with m k cfg)).
Proof.
  intros Hact. unfold deepbook_integration.manager_with, deepbook_integration.all_active.
  cbn [deepbook_integration.registered_pools deepbook_integration.set_registered_pools
       deepbook_integration.admin].
  split; [reflexivity|]. split.
  - intros x Hx. destruct (decide (k = x)) as [->|Hne].
    + rewrite lookup_insert_eq. eauto.
    + rewrite lookup_insert_ne by exact Hne. exact Hx.
  - intros Hall x c. destruct (decide (k = x)) as [->|Hne].
    + rewrite lookup_insert_eq. intros [= <-]. exact Hact.
    + rewrite lookup_insert_ne by exact Hne. apply Hall.
Qed.

Lemma manager_next_keeps (c : TxContext) (call : deepbook_integration.manager_call)
  (m : deepbook_integration.DeepBookManager) :
  deepbook_integration.admin (deepbook_integration.manager_next c call m)
  = deepbook_integration.admin m
  /\ (forall x, is_Some (deepbook_integration.registered_pools m !! x) ->
      is_Some (deepbook_integration.registered_pools
                 (deepbook_integration.manager_next c call m) !! x))
  /\ (deepbook_integration.all_active m ->
      deepbook_integration.all_active (deepbook_integration.manager_next c call m)).
Proof.
  assert (Hsame : forall m', m' = m ->
            deepbook_integration.admin m' = deepbook_integration.admin m
            /\ (forall x, is_Some (deepbook_integration.registered_pools m !! x) ->
                is_Some (deepbook_integration.registered_pools m' !! x))
            /\ (deepbook_integration.all_active m ->
                deepbook_integration.all_active m'))
    by (intros m' ->; auto).
  unfold deepbook_integration.manager_next, commit.
  destruct (Z.eq_dec (sender c) (deepbook_integration.admin m)) as [Heq|Hne];
    destruct call as [n p b q| |n a|t mn a|n col d];
    cbn [deepbook_integration.run_manager_call].
  - rewrite deepbook_register_pool_run by exact Heq. cbn [target].
    apply manager_with_keeps. reflexivity.
  - rewrite setup_testnet_pools_run by exact Heq. cbn [target].
    destruct (manager_with_keeps m "testnet_sui_usdc"
                (deepbook_integration.mkPoolConfig 0x123456789abcdef "SUI" "USDC"
                   "testnet_sui_usdc" true) eq_refl) as (A1 & K1 & L1).
    destruct (manager_with_keeps
                (deepbook_integration.manager_with m "testnet_sui_usdc"
                   (deepbook_integration.mkPoolConfig 0x123456789abcdef "SUI" "USDC"
                      "testnet_sui_usdc" true))
                "testnet_sui_usdt"
                (deepbook_integration.mkPoolConfig 0x987654321fedcba "SUI" "USDT"
                   "testnet_sui_usdt" true) eq_refl) as (A2 & K2 & L2).
    split; [congruence|]. split; auto.
  - rewrite execute_deepbook_flash_loan_run. cbn [target call_ctx emitted].
    apply Hsame.
    destruct (deepbook_integration.registered_pools m !! n) as [cfg|];
      [destruct (deepbook_integration.active cfg)|]; reflexivity.
  - rewrite execute_cross_network_arbitrage_run. cbn [target call_ctx emitted].
    apply Hsame.
    destruct (deepbook_integration.registered_pools m !! t) as [ct|];
      [destruct (deepbook_integration.registered_pools m !! mn) as [cm|]|];
      reflexivity.
  - rewrite execute_liquidation_arbitrage_run. cbn [target call_ctx emitted].
    apply Hsame.
    destruct (deepbook_integration.registered_pools m !! n) as [cfg|];
      [destruct (d * 500 <=? MAX_U64)|]; reflexivity.
  - rewrite deepbook_register_pool_unauthorized by exact Hne. apply Hsame. reflexivity.
  - apply Hsame. destruct m as [i pools bm adm]. cbn [deepbook_integration.admin] in Hne.
    unfold deepbook_integration.setup_testnet_pools. unfold_call.
    cbn [target call_ctx]. decide_tests. reflexivity.
  - rewrite execute_deepbook_flash_loan_run. cbn [target call_ctx emitted].
    apply Hsame.
    destruct (deepbook_integration.registered_pools m !! n) as [cfg|];
      [destruct (deepbook_integration.active cfg)|]; reflexivity.
  - rewrite execute_cross_network_arbitrage_run. cbn [target call_ctx emitted].
    apply Hsame.
    destruct (deepbook_integration.registered_pools m !! t) as [ct|];
      [destruct (deepbook_integration.registered_pools m !! mn) as [cm|]|];
      reflexivity.
  - rewrite execute_liquidation_arbitrage_run. cbn [target call_ctx emitted].
    apply Hsame.
    destruct (deepbook_integration.registered_pools m !! n) as [cfg|];
      [destruct (d * 500 <=? MAX_U64)|]; reflexivity.
Qed.

(** X22.  Over any history of calls on a manager, by anyone and whether
    they return or abort: the admin stays the same, a registered network is
    never removed, and, since nothing ever clears [active], a manager whose
    configurations are all active keeps them all active, so that
    [is_pool_active] answers [true] for a network from its registration
    on. *)
Theorem manager_history_keeps
  (calls : list (TxContext * deepbook_integration.manager_call))
  (m : deepbook_integration.DeepBookManager) :
  deepbook_integration.admin (deepbook_integration.manager_history calls m)
  = deepbook_integration.admin m
  /\ (forall x, is_Some (deepbook_integration.registered_pools m !! x) ->
      is_Some (deepbook_integration.registered_pools
                 (deepbook_integration.manager_history calls m) !! x))
  /\ (deepbook_integration.all_active m ->
      deepbook_integration.all_active (deepbook_integration.manager_history calls m)
      /\ forall x, is_Some (deepbook_integration.registered_pools m !! x) ->
           deepbook_integration.is_pool_active x
             (deepbook_integration.manager_history calls m)
           = Ok true (deepbook_integration.manager_history calls m)).
Proof.
  assert (Hkeep : forall calls m,
            deepbook_integration.admin (deepbook_integration.manager_history calls m)
            = deepbook_integration.admin m
            /\ (forall x, is_Some (deepbook_integration.registered_pools m !! x) ->
                is_Some (deepbook_integration.registered_pools
                           (deepbook_integration.manager_history calls m) !! x))
            /\ (deepbook_integration.all_active m ->
                deepbook_integration.all_active
                  (deepbook_integration.manager_history calls m))).
  { clear. intros calls. induction calls as [|[c call] rest IH]; intros m;
      cbn [deepbook_integration.manager_history]; [auto|].
    destruct (IH (deepbook_integration.manager_next c call m)) as (A & K & L).
    destruct (manager_next_keeps c call m) as (A' & K' & L').
    split; [congruence|]. split; auto. }
  destruct (Hkeep calls m) as (A & K & L).
  split; [exact A|]. split; [exact K|]. intros Hall.
  split; [auto|]. intros x Hx. rewrite is_pool_active_run.
  destruct (K x Hx) as [cfg Ecfg]. rewrite Ecfg.
  rewrite (L Hall x cfg Ecfg). reflexivity.
Qed.

Lemma manager_history_keeps_witness :
  deepbook_integration.all_active
    (deepbook_integration.manager_history
       [(mkTxContext ADMIN 6 0, deepbook_integration.call_setup_testnet_pools);
        (mkTxContext USER 5 0,
         deepbook_integration.call_execute_deepbook_flash_loan "testnet_sui_usdc"
           1000000)]
       fresh_manager).
Proof.
  apply (manager_history_keeps
           [(mkTxContext ADMIN 6 0, deepbook_integration.call_setup_testnet_pools);
            (mkTxContext USER 5 0,
             deepbook_integration.call_execute_deepbook_flash_loan "testnet_sui_usdc"
               1000000)]
           fresh_manager).
  intros k c. unfold fresh_manager. cbn [deepbook_integration.registered_pools].
  rewrite lookup_empty.
  discriminate.
Defined.

(** X23.  On a manager whose configurations are all active,
    [execute_deepbook_flash_loan] returns exactly for the registered
    networks, by whoever calls it; it then emits one event carrying the
    pool id of the network, the amount and a profit of [amount / 200]
    rounded down, and leaves the manager as it was. *)
Theorem execute_deepbook_flash_loan_spec (s : deepbook_integration.State)
  (network : string) (amount : u64) :
  deepbook_integration.all_active (target s) ->
  (forall c,
     deepbook_integration.registered_pools (target s) !! network = Some c ->
     deepbook_integration.execute_deepbook_flash_loan network amount s
     = Ok tt (mkCall (target s) (call_ctx s)
                (emitted s ++
                 [deepbook_integration.mkFlashLoanExecution (sender (call_ctx s))
                    (deepbook_integration.pool_id c) amount (amount / 200)
                    network 0])))
  /\ ((exists s', deepbook_integration.execute_deepbook_flash_loan network amount s
                  = Ok tt s')
      <-> is_Some (deepbook_integration.registered_pools (target s) !! network)).
Proof.
  intros Hall. split.
  - intros c E. rewrite execute_deepbook_flash_loan_run, E, (Hall _ _ E). reflexivity.
  - rewrite execute_deepbook_flash_loan_run.
    destruct (deepbook_integration.registered_pools (target s) !! network) as [c|]
      eqn:E.
    + rewrite (Hall _ _ E). split; eauto.
    + split; [intros [s' H]; discriminate|intros [x Hx]; discriminate].
Qed.

Lemma execute_deepbook_flash_loan_spec_witness :
  exists s',
    deepbook_integration.execute_deepbook_flash_loan "testnet" 1000000
      (called_by USER testnet_manager) = Ok tt s'.
Proof.
  apply (proj2 (execute_deepbook_flash_loan_spec (called_by USER testnet_manager)
                  "testnet" 1000000
                  ltac:(intros k c H;
                        change ((({[ "testnet" := testnet_config ]}
                                  : gmap string deepbook_integration.PoolConfig)
                                 !! k) = Some c) in H;
                        apply lookup_singleton_Some in H;
                        destruct H as [_ <-]; reflexivity))).
  exists testnet_config. apply lookup_singleton_eq.
Defined.

(** X24.  [execute_cross_network_arbitrage] asks only that both keys are
    registered: it does not read [active], and of the second configuration
    it reads nothing at all.  It returns with one event that carries the
    pool id of the first key, a profit of [amount / 50] rounded down and the
    network name "cross_network", and leaves the manager as it was. *)
Theorem execute_cross_network_arbitrage_spec (s : deepbook_integration.State)
  (testnet_pool mainnet_pool : string) (amount : u64)
  (ct cm : deepbook_integration.PoolConfig) :
  deepbook_integration.registered_pools (target s) !! testnet_pool = Some ct ->
  deepbook_integration.registered_pools (target s) !! mainnet_pool = Some cm ->
  deepbook_integration.execute_cross_network_arbitrage testnet_pool mainnet_pool
    amount s
  = Ok tt (mkCall (target s) (call_ctx s)
             (emitted s ++
              [deepbook_integration.mkFlashLoanExecution (sender (call_ctx s))
                 (deepbook_integration.pool_id ct) amount (amount / 50)
                 "cross_network" 0])).
Proof.
  intros Et Em. rewrite execute_cross_network_arbitrage_run, Et, Em. reflexivity.
Qed.

Lemma execute_cross_network_arbitrage_spec_witness :
  deepbook_integration.execute_cross_network_arbitrage "a" "b" 1000000
    (called_by USER paused_manager)
  = Ok tt (mkCall paused_manager (mkTxContext USER 5 0)
             [deepbook_integration.mkFlashLoanExecution USER 291 1000000
                (1000000 / 50) "cross_network" 0]).
Proof.
  apply (execute_cross_network_arbitrage_spec (called_by USER paused_manager)
           "a" "b" 1000000 paused_a paused_b).
  - vm_compute. reflexivity.
  - vm_compute. reflexivity.
Defined.

(** X25.  [execute_liquidation_arbitrage] on a registered network, active
    or not: when [debt_amount * 500] fits in a u64 it returns with one event
    whose amount is the debt and whose profit is [debt_amount * 500 / 10000]
    rounded down; when it does not fit the call aborts on the
    multiplication, although the reward itself would fit.  The collateral
    amount plays no part in the outcome. *)
Theorem execute_liquidation_arbitrage_spec (s : deepbook_integration.State)
  (network : string) (collateral_amount debt_amount : u64)
  (c : deepbook_integration.PoolConfig) :
  deepbook_integration.registered_pools (target s) !! network = Some c ->
  (debt_amount * 500 <= MAX_U64 ->
   deepbook_integration.execute_liquidation_arbitrage network collateral_amount
     debt_amount s
   = Ok tt (mkCall (target s) (call_ctx s)
              (emitted s ++
               [deepbook_integration.mkFlashLoanExecution (sender (call_ctx s))
                  (deepbook_integration.pool_id c) debt_amount
                  (debt_amount * 500 / 10000) network 0])))
  /\ (MAX_U64 < debt_amount * 500 ->
      deepbook_integration.execute_liquidation_arbitrage network collateral_amount
        debt_amount s = Aborted ArithmeticError s)
  /\ (forall other_collateral,
      deepbook_integration.execute_liquidation_arbitrage network other_collateral
        debt_amount s
      = deepbook_integration.execute_liquidation_arbitrage network collateral_amount
          debt_amount s).
Proof.
  intros E. rewrite !execute_liquidation_arbitrage_run, E.
  split; [|split].
  - intros H. decide_tests. reflexivity.
  - intros H. decide_tests. reflexivity.
  - intros other. rewrite execute_liquidation_arbitrage_run, E. reflexivity.
Qed.

Lemma execute_liquidation_arbitrage_spec_witness :
  deepbook_integration.execute_liquidation_arbitrage "testnet" 8000
    40000000000000000 (called_by USER testnet_manager)
  = Aborted ArithmeticError (called_by USER testnet_manager).
Proof.
  apply (proj1 (proj2 (execute_liquidation_arbitrage_spec
                         (called_by USER testnet_manager) "testnet" 8000
                         40000000000000000 testnet_config
                         ltac:(vm_compute; reflexivity)))).
  vm_compute. reflexivity.
Defined.
